(** * Variable managers of tf_cnn_benchmarks ([variable_mgr.py])

    A shallow embedding of the variable-manager classes that BenchmarkCNN uses
    to place variables and to aggregate per-tower gradients, together with
    the properties the design document states about them.

    Python values are modelled as follows: an [int] is a [Z], a [list] is a
    [list], a [str] is a [string], a [dict] keyed by strings is a
    [gmap string _], and a call that may raise returns a [result]. *)

From Stdlib Require Import ZArith List String Ascii Bool Lia Permutation.
From stdpp Require Import base list strings gmap pretty.

Set Default Proof Using "Type".
Set Warnings "-register-all".
Local Open Scope string_scope.
Local Open Scope list_scope.
Local Open Scope Z_scope.

(** ** Python runtime *)

(** The exceptions the module can raise, directly or through indexing. *)
Inductive exn : Type :=
| ValueError (msg : string)
| AssertionError
| IndexError
| KeyError (key : string)
| InvalidArgumentError.

(** The outcome of a call: a value, or a raised exception. *)
Inductive result (A : Type) : Type :=
| Ok (a : A)
| Raise (e : exn).
Arguments Ok {A} a.
Arguments Raise {A} e.

#[global] Instance result_ret : MRet result := λ A a, Ok a.
#[global] Instance result_bind : MBind result := λ A B f m,
  match m with
  | Ok a => f a
  | Raise e => Raise e
  end.
#[global] Instance result_fmap : FMap result := λ A B f m,
  match m with
  | Ok a => Ok (f a)
  | Raise e => Raise e
  end.

(** [assert cond] *)
Definition py_assert (cond : bool) : result unit :=
  if cond then Ok tt else Raise AssertionError.

(** [l[i]] for a Python list: a negative index counts from the end, and an
    index outside [-len(l) .. len(l)-1] raises [IndexError]. *)
Definition py_index {A} (l : list A) (i : Z) : result A :=
  let n := Z.of_nat (length l) in
  if (0 <=? i) && (i <? n) then
    match l !! Z.to_nat i with Some x => Ok x | None => Raise IndexError end
  else if (- n <=? i) && (i <? 0) then
    match l !! Z.to_nat (n + i) with Some x => Ok x | None => Raise IndexError end
  else Raise IndexError.

(** Truth value of a list: [bool(l)]. *)
Definition py_truthy {A} (l : list A) : bool :=
  match l with [] => false | _ :: _ => true end.

(** [s.startswith(p)] *)
Fixpoint startswith (s p : string) {struct p} : bool :=
  match p with
  | EmptyString => true
  | String a p' =>
      match s with
      | EmptyString => false
      | String b s' => Ascii.eqb a b && startswith s' p'
      end
  end.

(** [s.split(sep)] for a one-character separator: the pieces between the
    separators; there is always at least one piece. *)
Fixpoint split (sep : ascii) (s : string) : list string :=
  match s with
  | EmptyString => [EmptyString]
  | String c s' =>
      if Ascii.eqb c sep then EmptyString :: split sep s'
      else match split sep s' with
           | [] => [String c EmptyString]
           | piece :: pieces => String c piece :: pieces
           end
  end.

(** [sep.join(pieces)] *)
Fixpoint join (sep : string) (pieces : list string) : string :=
  match pieces with
  | [] => EmptyString
  | [p] => p
  | p :: ps => p +:+ sep +:+ join sep ps
  end.

(** [dict(items)]: a later item with the same key replaces an earlier one. *)
Definition py_dict {V} (items : list (string * V)) : gmap string V :=
  foldl (λ d kv, <[kv.1 := kv.2]> d) ∅ items.

(** [d[k]] *)
Definition py_getitem {V} (d : gmap string V) (k : string) : result V :=
  match d !! k with Some v => Ok v | None => Raise (KeyError k) end.

(** ** TensorFlow values *)

(** A device string such as ["/gpu:0"]. *)
Definition Device : Type := string.

(** A tensor: its static shape, its elements in row-major order and the
    device it is placed on. *)
Record Tensor (Elem : Type) : Type := mkTensor {
  shape : list nat;
  values : list Elem;
  device : Device;
}.
Arguments mkTensor {Elem} shape values device.
Arguments shape {Elem} t.
Arguments values {Elem} t.
Arguments device {Elem} t.

(** A [tf.Variable]; the graph keeps variable names unique. *)
Record TfVariable : Type := mkVariable { name : string }.

#[global] Instance TfVariable_eq_dec : EqDecision TfVariable.
Proof. solve_decision. Defined.

(** The TensorFlow primitives whose arithmetic the module relies on but does
    not define. *)
Class TensorFlow : Type := {
  Elem : Type;
  (** elementwise [tf.is_finite] *)
  is_finite : Elem → bool;
  (** [tf.add_n] *)
  add_n : list (Tensor Elem) → Tensor Elem;
  (** [tf.multiply(t, 1.0 / n)] *)
  multiply_reciprocal : Tensor Elem → nat → Tensor Elem;
  (** [tf.get_variable(name, dtype=v.dtype.base_dtype,
      initializer=v.initial_value, trainable=True)] *)
  get_variable : string → TfVariable → result TfVariable;
}.

Section tensor_ops.
Context {E : Type}.
Implicit Types (t : Tensor E) (dev : Device).

(** Number of elements a shape stands for. *)
Definition num_elements (sh : list nat) : nat := foldr Nat.mul 1%nat sh.

(** [tf.shape(t)] and [tf.size(t)] *)
Definition tf_shape t : list nat := shape t.
Definition tf_size t : nat := num_elements (shape t).

(** [tf.reshape(t, [-1])], built on device [dev]. *)
Definition tf_reshape_flat dev t : Tensor E :=
  mkTensor [tf_size t] (values t) dev.

(** [tf.reshape(t, sh)]: the element count must not change. *)
Definition tf_reshape dev t (sh : list nat) : result (Tensor E) :=
  if decide (num_elements sh = tf_size t)
  then Ok (mkTensor sh (values t) dev)
  else Raise InvalidArgumentError.

(** [tf.concat(ts, 0)] of one-dimensional tensors. *)
Definition tf_concat dev (ts : list (Tensor E)) : Tensor E :=
  mkTensor [sum_list (tf_size <$> ts)] (concat (values <$> ts)) dev.

(** Consecutive pieces of the given sizes. *)
Fixpoint chunks (sizes : list nat) (xs : list E) : list (list E) :=
  match sizes with
  | [] => []
  | n :: sizes' => take n xs :: chunks sizes' (drop n xs)
  end.

(** [tf.split(t, sizes)] of a one-dimensional tensor: the sizes must add
    up to the size of [t]. *)
Definition tf_split dev t (sizes : list nat) : result (list (Tensor E)) :=
  if decide (sum_list sizes = tf_size t)
  then Ok (zip_with (λ n xs, mkTensor [n] xs dev) sizes (chunks sizes (values t)))
  else Raise InvalidArgumentError.

(** A tensor holds as many elements as its shape says. *)
Definition well_formed t : Prop := length (values t) = tf_size t.

#[global] Instance well_formed_dec t : Decision (well_formed t).
Proof. unfold well_formed. apply _. Defined.
End tensor_ops.

(** Graph operations the module creates.  [control_inputs] are the
    operations named by the enclosing [tf.control_dependencies] and
    [device_scope] the device named by the enclosing [tf.device]. *)
Inductive Op (E : Type) : Type :=
| ApplyGradients (grads_and_vars : list (Tensor E * TfVariable))
| SyncBarrier (name_prefix : string) (enqueue_after_list : list (Op E))
| ReadValue (v : TfVariable) (control_inputs : list (Op E))
    (device_scope : option Device)
| Assign (ref : TfVariable) (value : Op E) (control_inputs : list (Op E))
    (device_scope : option Device).
Arguments ApplyGradients {E} grads_and_vars.
Arguments SyncBarrier {E} name_prefix enqueue_after_list.
Arguments ReadValue {E} v control_inputs device_scope.
Arguments Assign {E} ref value control_inputs device_scope.

(** The operations an operation waits for directly: its data inputs and its
    control inputs. *)
Definition op_inputs {E} (op : Op E) : list (Op E) :=
  match op with
  | ApplyGradients _ => []
  | SyncBarrier _ after => after
  | ReadValue _ ctrl _ => ctrl
  | Assign _ value ctrl _ => value :: ctrl
  end.

(** [runs_after op op']: the runtime schedules [op] only once [op'] has
    completed, because a chain of inputs leads from [op] back to [op']. *)
Inductive runs_after {E} : Op E → Op E → Prop :=
| runs_after_input op op' :
    op' ∈ op_inputs op → runs_after op op'
| runs_after_trans op op' op'' :
    op' ∈ op_inputs op → runs_after op' op'' → runs_after op op''.

(** ** The BenchmarkCNN object, as far as the variable managers read it *)

(** The flags read here; [gradient_repacking] is a count, 0 meaning off. *)
Record Params : Type := mkParams {
  hierarchical_copy : bool;
  gradient_repacking : nat;
}.

Record BenchmarkCNN : Type := mkBenchmarkCNN {
  devices : list Device;
  raw_devices : list Device;
  param_server_device : Device;
  cpu_device : Device;
  gpu_indices : list Z;
  num_gpus : nat;
  enable_auto_loss_scale : bool;
  local_parameter_device_flag : string;
  params : Params;
}.

(** Modelled from the spec: [BenchmarkCNN.add_sync_queues_and_barrier] is not
    among the sources.  It is the "rendezvous/queue-based barrier keyed by
    parameter index" that every worker passes only after the operations it
    was given have completed; it is kept as the uninterpreted graph node
    [SyncBarrier]. *)
Definition add_sync_queues_and_barrier {E} (cnn : BenchmarkCNN)
    (name_prefix : string) (enqueue_after_list : list (Op E)) : Op E :=
  SyncBarrier name_prefix enqueue_after_list.

(** ** Gradients *)

(** [(gradient, variable)], and the matrix [device_grads[t][g]] of them. *)
Abbreviation GradAndVar := (Tensor Elem * TfVariable)%type.
Abbreviation DeviceGrads := (list (list GradAndVar)).

Section gradients.
Context `{TensorFlow}.

(** One gradient holds an Inf or a NaN. *)
Definition has_inf_nan (g : Tensor Elem) : bool :=
  negb (forallb is_finite (values g)).
End gradients.

(** ** The [allreduce] module *)

(** One range of a parsed all-reduce spec. *)
Record AllReduceSpecTuple : Type := mkAllReduceSpecTuple {
  alg : string;
  shards : Z;
  limit : Z;
}.

(** Modelled from the spec: [allreduce.py] is not among the sources, so the
    functions of it that the variable managers call are parameters.
    [parse_all_reduce_spec] yields the ranges of "a parsed specification of
    algorithm name, shard count, and a byte-size limit";
    [split_grads_by_size] is the "splitting policy" that, given a limit,
    "partitions gradients" into those of the current range and the rest;
    [sum_gradients_all_reduce] is the tree-reduction engine. *)
Class AllReduce `{TensorFlow} : Type := {
  parse_all_reduce_spec : string → result (list AllReduceSpecTuple);
  build_all_reduce_device_prefixes : string → Z → result (list string);
  split_grads_by_size : Z → DeviceGrads → result (DeviceGrads * DeviceGrads);
  sum_gradients_all_reduce :
    list string → DeviceGrads → Z → string → Z → list Z → Z → Z →
    result DeviceGrads;
}.

(** ** The [variable_mgr_util] module *)

(** Modelled from the spec: [variable_mgr_util.py] is not among the sources.
    The aggregation by copy with device selection is defined below; the
    other functions the variable managers call are parameters. *)
Class VariableMgrUtil `{TensorFlow} : Type := {
  PS_SHADOW_VAR_PREFIX : string;
  LossScaleParams : Type;
  aggregate_gradients_using_hierarchical_copy :
    ∀ V : Type, BenchmarkCNN → list (list (Tensor Elem * V)) → bool → bool →
    result (list (list (Tensor Elem * V)) * option bool);
  aggregate_gradients_using_copy_with_variable_colocation :
    DeviceGrads → bool → bool → result (list GradAndVar * option bool);
  aggregate_gradients_using_copy :
    DeviceGrads → bool → bool → result (list GradAndVar * option bool);
  append_gradients_with_loss_scale :
    list (Op Elem) → (unit → result (list (Op Elem))) → LossScaleParams →
    option bool → result (list (Op Elem));
}.
Arguments aggregate_gradients_using_hierarchical_copy {_ _} {V}.

Section aggregate_using_copy.
Context `{TensorFlow}.

(** Python's [zip] applied to the unpacked rows: the columns of a matrix,
    as far as every row reaches. *)
Definition columns {A} (rows : list (list A)) : list (list A) :=
  match rows with
  | [] => []
  | row :: rows' =>
      let n := foldr Nat.min (length row) (length <$> rows') in
      (λ j, omap (λ r, r !! j) rows) <$> seq 0 n
  end.

(** Modelled from the spec: the aggregation of one parameter's gradients
    "copies every replica's gradient for a parameter to one target device
    [...], sums (or averages) them there"; with [use_mean] the sum over
    [R] replicas becomes "reduced_value/R".  The parameter handle of the
    result is the first replica's. *)
Definition aggregate_single_gradient_using_copy
    (grad_and_vars : list GradAndVar) (use_mean : bool) : option GradAndVar :=
  match grad_and_vars with
  | [] => None
  | (_, v) :: _ =>
      let grads := fst <$> grad_and_vars in
      let grad := add_n grads in
      Some (if use_mean then multiply_reciprocal grad (length grads) else grad, v)
  end.

(** Modelled from the spec:
    [variable_mgr_util.aggregate_gradients_using_copy_with_device_selection]
    is not among the sources.  Given the matrix it produces "one
    aggregated sequence of (gradient, parameter) pairs aligned positionally
    with the input's per-replica sequences" and, "if check_inf_nan, also
    computes a boolean flag that is true iff any input gradient contained a
    non-finite value, for every parameter, reduced via logical OR". *)
Definition aggregate_gradients_using_copy_with_device_selection
    (cnn : BenchmarkCNN) (tower_grads : DeviceGrads)
    (use_mean check_inf_nan : bool) : list GradAndVar * option bool :=
  let agg_grads :=
    omap (λ single_grads, aggregate_single_gradient_using_copy single_grads use_mean)
         (columns tower_grads) in
  let has_nan_or_inf :=
    existsb (λ single_grads, existsb (λ gv, has_inf_nan gv.1) single_grads)
            (columns tower_grads) in
  (agg_grads, if check_inf_nan then Some has_nan_or_inf else None).
End aggregate_using_copy.

(** ** [class VariableMgr]: the abstract superclass *)

Module VariableMgr.
Section defs.
Context `{TensorFlow} `{!VariableMgrUtil}.

(** The instance fields set by [__init__]. *)
Record t : Type := mk {
  benchmark_cnn : BenchmarkCNN;
  staging_delta_ops : list (Op Elem);
  (** the variable for automatic loss scaling *)
  grad_has_inf_nan : option bool;
}.

Definition __init__ (benchmark_cnn : BenchmarkCNN) : t :=
  mk benchmark_cnn [] None.

(** [self.grad_has_inf_nan = flag] *)
Definition set_grad_has_inf_nan (self : t) (flag : option bool) : t :=
  mk (benchmark_cnn self) (staging_delta_ops self) flag.

Definition supports_staged_vars : bool := false.

Definition append_apply_gradients_ops (self : t)
    (grads : list GradAndVar) (training_ops : list (Op Elem))
    (loss_scale_params : LossScaleParams) : result (list (Op Elem)) :=
  let get_apply_gradients_ops_func (_ : unit) :=
    Ok [ApplyGradients grads] in
  append_gradients_with_loss_scale
    training_ops get_apply_gradients_ops_func loss_scale_params
    (grad_has_inf_nan self).

Definition get_post_init_ops : list (Op Elem) := [].

Definition savable_variables (global_variables : list TfVariable)
  : list TfVariable := global_variables.

(** Return the set of trainable variables on device.  The subclass says
    through [each_tower_has_variables] whether the towers have variables of
    their own; [rel_device_num] and [writable] are not used. *)
Definition trainable_variables_on_device (each_tower_has_variables : bool)
    (trainable_variables : list TfVariable)
    (rel_device_num abs_device_num : Z) (writable : bool) : list TfVariable :=
  if each_tower_has_variables then
    filter (λ v, startswith (name v) ("v" +:+ pretty abs_device_num +:+ "/") = true)
           trainable_variables
  else trainable_variables.
End defs.
End VariableMgr.

(** ** [class VariableMgrIndependent] *)

Module VariableMgrIndependent.
Section defs.
Context `{TensorFlow}.

Definition t : Type := VariableMgr.t.

Definition each_tower_has_variables : bool := true.

(** The name of the scope [tf.variable_scope('v%s' % device_num)]. *)
Definition create_outer_variable_scope (device_num : Z) : string :=
  "v" +:+ pretty device_num.

Definition preprocess_device_grads (self : t) (device_grads : DeviceGrads)
  : list Device * DeviceGrads :=
  (devices (VariableMgr.benchmark_cnn self), device_grads).

Definition get_gradients_to_apply (self : t) (device_num : Z)
    (gradient_state : DeviceGrads) : result (list GradAndVar * t) :=
  let device_grads := gradient_state in
  tower_grad ← py_index device_grads device_num;
  if enable_auto_loss_scale (VariableMgr.benchmark_cnn self)
     && (device_num =? 0)
  then
    let has_inf_nan_list :=
      (λ gv : GradAndVar, forallb is_finite (values gv.1)) <$> tower_grad in
    Ok (tower_grad,
        VariableMgr.set_grad_has_inf_nan self
          (Some (negb (forallb id has_inf_nan_list))))
  else Ok (tower_grad, self).

Definition get_devices (self : t) : list Device :=
  raw_devices (VariableMgr.benchmark_cnn self).
End defs.
End VariableMgrIndependent.

(** ** [class VariableMgrLocalFetchFromPS] and its staged subclass *)

Module VariableMgrLocalFetchFromPS.
Section defs.
Context `{TensorFlow} `{!VariableMgrUtil}.

Definition t : Type := VariableMgr.t.

Definition each_tower_has_variables : bool := false.

Definition preprocess_device_grads (self : t) (device_grads : DeviceGrads)
  : list Device * DeviceGrads :=
  ([param_server_device (VariableMgr.benchmark_cnn self)], device_grads).

Definition get_gradients_to_apply (self : t) (device_num : Z)
    (gradient_state : DeviceGrads) : result (list GradAndVar * t) :=
  _ ← py_assert (device_num =? 0);
  let device_grads := gradient_state in
  '(agg_grads, flag) ←
    aggregate_gradients_using_copy_with_variable_colocation
      device_grads true
      (enable_auto_loss_scale (VariableMgr.benchmark_cnn self));
  Ok (agg_grads, VariableMgr.set_grad_has_inf_nan self flag).
End defs.
End VariableMgrLocalFetchFromPS.

(** [VariableMgrLocalFetchFromStagedPS] overrides neither
    [preprocess_device_grads] nor [get_gradients_to_apply]. *)
Module VariableMgrLocalFetchFromStagedPS.
Section defs.
Context `{TensorFlow} `{!VariableMgrUtil}.
Definition t : Type := VariableMgr.t.
Definition supports_staged_vars : bool := true.
Definition preprocess_device_grads :=
  VariableMgrLocalFetchFromPS.preprocess_device_grads.
Definition get_gradients_to_apply :=
  VariableMgrLocalFetchFromPS.get_gradients_to_apply.
End defs.
End VariableMgrLocalFetchFromStagedPS.

(** ** [class VariableMgrLocalReplicated] *)

Module VariableMgrLocalReplicated.
Section defs.
Context `{TensorFlow} `{!AllReduce} `{!VariableMgrUtil}.

Record t : Type := mk {
  base : VariableMgr.t;
  _all_reduce_spec : option AllReduceSpecTuple;
  _agg_small_grads_max_bytes : Z;
  _agg_small_grads_max_group : Z;
}.

Definition set_grad_has_inf_nan (self : t) (flag : option bool) : t :=
  mk (VariableMgr.set_grad_has_inf_nan (base self) flag)
     (_all_reduce_spec self)
     (_agg_small_grads_max_bytes self) (_agg_small_grads_max_group self).

(** [all_reduce_spec] is a string or [None]; both [None] and the empty
    string are false. *)
Definition __init__ (benchmark_cnn : BenchmarkCNN)
    (all_reduce_spec : option string)
    (agg_small_grads_max_bytes agg_small_grads_max_group : Z) : result t :=
  let super := VariableMgr.__init__ benchmark_cnn in
  match all_reduce_spec with
  | Some (String _ _ as all_reduce_spec) =>
      spec ← parse_all_reduce_spec all_reduce_spec;
      match spec with
      | [spec0] =>
          Ok (mk super (Some spec0)
                agg_small_grads_max_bytes agg_small_grads_max_group)
      | _ =>
          Raise (ValueError
            "replicated mode does not support hybrid all-reduce strategies")
      end
  | _ =>
      Ok (mk super None agg_small_grads_max_bytes agg_small_grads_max_group)
  end.

Definition each_tower_has_variables : bool := true.

Definition create_outer_variable_scope (device_num : Z) : string :=
  "v" +:+ pretty device_num.

(** The sizes of the packs one tower's concatenated gradients are split
    into: [[split_size] * (num_splits - 1) + [split_size_last]]. *)
Definition split_sizes (total_grad_size num_splits : nat) : list nat :=
  let split_size := (total_grad_size / num_splits)%nat in
  let split_size_last :=
    (total_grad_size - split_size * (num_splits - 1))%nat in
  replicate (num_splits - 1) split_size ++ [split_size_last].

(** The body of the first repacking loop: flatten one tower's gradients,
    concatenate them and split the result into [num_splits] packs with
    fake variables; the shapes and sizes are remembered. *)
Definition pack_tower (num_splits : nat)
    (tower_grads_and_vars : list GradAndVar)
  : result (list (Tensor Elem * option TfVariable)
            * list (list nat) * list nat) :=
  first ← py_index tower_grads_and_vars 0;
  let dev := device first.1 in
  let flat_grads :=
    (λ gv : GradAndVar, tf_reshape_flat dev gv.1) <$> tower_grads_and_vars in
  let tower_shapes :=
    (λ gv : GradAndVar, tf_shape gv.1) <$> tower_grads_and_vars in
  let tower_sizes :=
    (λ gv : GradAndVar, tf_size gv.1) <$> tower_grads_and_vars in
  let concat_grads := tf_concat dev flat_grads in
  let total_grad_size := tf_size concat_grads in
  grad_packs ← tf_split dev concat_grads
                 (split_sizes total_grad_size num_splits);
  Ok (zip grad_packs (replicate num_splits None), tower_shapes, tower_sizes).

(** The body of the second repacking loop: concatenate the summed packs
    of one tower, split them back into the original sizes, reshape them
    into the original shapes and pair them with the tower's variables. *)
Definition unpack_tower
    (summed_tower_grad_packs : list (Tensor Elem * option TfVariable))
    (tower_grads_and_vars : list GradAndVar)
    (tower_shapes : list (list nat)) (tower_sizes : list nat)
  : result (list GradAndVar) :=
  first ← py_index summed_tower_grad_packs 0;
  let dev := device first.1 in
  let device_grad_packs := fst <$> summed_tower_grad_packs in
  let device_grads_concat := tf_concat dev device_grad_packs in
  grads_with_sizes ← tf_split dev device_grads_concat tower_sizes;
  grads_with_shapes ←
    mapM (λ sg : list nat * Tensor Elem, tf_reshape dev sg.2 sg.1)
         (zip tower_shapes grads_with_sizes);
  Ok (zip_with (λ g (gv : GradAndVar), (g, gv.2))
        grads_with_shapes tower_grads_and_vars).

Definition preprocess_device_grads (self : t) (device_grads : DeviceGrads)
  : result (list Device * DeviceGrads * t) :=
  let cnn := VariableMgr.benchmark_cnn (base self) in
  match _all_reduce_spec self with
  | Some spec =>
      aggregated_device_grads ←
        sum_gradients_all_reduce
          ["/job:localhost"] device_grads 1 (alg spec) (shards spec)
          (gpu_indices cnn)
          (_agg_small_grads_max_bytes self)
          (_agg_small_grads_max_group self);
      Ok (devices cnn, aggregated_device_grads, self)
  | None =>
      if negb (hierarchical_copy (params cnn)) then
        let '(agg_grads, flag) :=
          aggregate_gradients_using_copy_with_device_selection
            cnn device_grads false (enable_auto_loss_scale cnn) in
        let aggregated_device_grads :=
          (λ arr : list GradAndVar,
             zip_with (λ (av ag : GradAndVar), (ag.1, av.2)) arr agg_grads)
          <$> device_grads in
        Ok (devices cnn, aggregated_device_grads,
            set_grad_has_inf_nan self flag)
      else
        match gradient_repacking (params cnn) with
        | O =>
            '(aggregated_device_grads, flag) ←
              aggregate_gradients_using_hierarchical_copy
                cnn device_grads false (enable_auto_loss_scale cnn);
            Ok (devices cnn, aggregated_device_grads,
                set_grad_has_inf_nan self flag)
        | S _ as num_splits =>
            packed ← mapM (pack_tower num_splits) device_grads;
            let device_grad_packs := (λ p, p.1.1) <$> packed in
            let all_tower_shapes := (λ p, p.1.2) <$> packed in
            let all_tower_sizes := (λ p, p.2) <$> packed in
            '(summed_device_grad_packs, flag) ←
              aggregate_gradients_using_hierarchical_copy
                cnn device_grad_packs false (enable_auto_loss_scale cnn);
            aggregated_device_grads ←
              mapM (λ x, unpack_tower x.1.1.1 x.1.1.2 x.1.2 x.2)
                   (zip (zip (zip summed_device_grad_packs device_grads)
                             all_tower_shapes) all_tower_sizes);
            Ok (devices cnn, aggregated_device_grads,
                set_grad_has_inf_nan self flag)
        end
  end.

Definition get_gradients_to_apply (self : t) (device_num : Z)
    (gradient_state : DeviceGrads) : result (list GradAndVar) :=
  let device_grads := gradient_state in
  py_index device_grads device_num.

(** The test both loops over the global variables make:
    [split_name[0] == 'v0' or not v.name.startswith('v')]. *)
Definition is_v0_or_unscoped (v : TfVariable) : bool :=
  let split_name := split "/" (name v) in
  String.eqb (default "" (head split_name)) "v0"
  || negb (startswith (name v) "v").

(** The loop of [get_post_init_ops] over the remaining variables. *)
Fixpoint post_init_loop (var_by_name : gmap string TfVariable)
    (vars : list TfVariable) (post_init_ops : list (Op Elem))
  : result (list (Op Elem)) :=
  match vars with
  | [] => Ok post_init_ops
  | v :: vars' =>
      let split_name := split "/" (name v) in
      if is_v0_or_unscoped v then
        post_init_loop var_by_name vars' post_init_ops
      else
        let split_name := <[0%nat := "v0"]> split_name in
        copy_from ← py_getitem var_by_name (join "/" split_name);
        post_init_loop var_by_name vars'
          (post_init_ops ++ [Assign v (ReadValue copy_from [] None) [] None])
  end.

(** Copy initialized values for variables on GPU 0 to other GPUs. *)
Definition get_post_init_ops (global_variables : list TfVariable)
  : result (list (Op Elem)) :=
  let global_vars := global_variables in
  let var_by_name := py_dict ((λ v, (name v, v)) <$> global_vars) in
  post_init_loop var_by_name global_vars [].

Fixpoint savable_loop (vars params : list TfVariable) : list TfVariable :=
  match vars with
  | [] => params
  | v :: vars' =>
      if is_v0_or_unscoped v then savable_loop vars' (params ++ [v])
      else savable_loop vars' params
  end.

(** Return the set of variables used for saving/loading the model. *)
Definition savable_variables (global_variables : list TfVariable)
  : list TfVariable :=
  savable_loop global_variables [].
End defs.
End VariableMgrLocalReplicated.

(** ** [class VariableMgrDistributedAllReduce] *)

Module VariableMgrDistributedAllReduce.
Section defs.
Context `{TensorFlow} `{!AllReduce} `{!VariableMgrUtil}.

Record t : Type := mk {
  base : VariableMgr.t;
  _all_reduce_spec : list AllReduceSpecTuple;
  _all_reduce_device_prefixes : list string;
  _num_workers : Z;
  _agg_small_grads_max_bytes : Z;
  _agg_small_grads_max_group : Z;
}.

Definition __init__ (benchmark_cnn : BenchmarkCNN)
    (all_reduce_spec : option string) (job_name : string) (num_workers : Z)
    (agg_small_grads_max_bytes agg_small_grads_max_group : Z) : result t :=
  let super := VariableMgr.__init__ benchmark_cnn in
  match all_reduce_spec with
  | Some (String _ _ as all_reduce_spec) =>
      spec ← parse_all_reduce_spec all_reduce_spec;
      prefixes ← build_all_reduce_device_prefixes job_name num_workers;
      if negb (py_truthy spec)
      then Raise (ValueError "all_reduce_spec must be specified")
      else Ok (mk super spec prefixes num_workers
                 agg_small_grads_max_bytes agg_small_grads_max_group)
  | _ =>
      Raise (ValueError
        "distributed_all_reduce requires a non-empty all_reduce_spec")
  end.

Definition each_tower_has_variables : bool := true.

Definition create_outer_variable_scope (device_num : Z) : string :=
  "v" +:+ pretty device_num.

(** The gradients one range of the spec takes from the remaining ones,
    and what it leaves. *)
Definition take_range (spec_tuple : AllReduceSpecTuple)
    (remaining_grads : DeviceGrads) : result (DeviceGrads * DeviceGrads) :=
  if limit spec_tuple <? 0 then Ok (remaining_grads, [])
  else split_grads_by_size (limit spec_tuple) remaining_grads.

(** Adding the reduced gradients of one range to those of the earlier
    ranges: [aggregated_grads[i] += range_agg_grads[i]]. *)
Definition merge_range (aggregated_grads range_agg_grads : DeviceGrads)
  : result DeviceGrads :=
  if negb (py_truthy aggregated_grads) then Ok range_agg_grads
  else
    _ ← py_assert (length aggregated_grads =? length range_agg_grads)%nat;
    Ok (zip_with app aggregated_grads range_agg_grads).

(** One iteration of the loop over the spec, on the loop state
    [(aggregated_grads, remaining_grads)]. *)
Definition reduce_range (self : t) (spec_tuple : AllReduceSpecTuple)
    (state : DeviceGrads * DeviceGrads) : result (DeviceGrads * DeviceGrads) :=
  let '(aggregated_grads, remaining_grads) := state in
  '(this_grads, remaining_grads) ← take_range spec_tuple remaining_grads;
  if py_truthy this_grads then
    range_agg_grads ←
      sum_gradients_all_reduce
        (_all_reduce_device_prefixes self) this_grads (_num_workers self)
        (alg spec_tuple) (shards spec_tuple)
        (gpu_indices (VariableMgr.benchmark_cnn (base self)))
        (_agg_small_grads_max_bytes self) (_agg_small_grads_max_group self);
    aggregated_grads ← merge_range aggregated_grads range_agg_grads;
    Ok (aggregated_grads, remaining_grads)
  else Ok (aggregated_grads, remaining_grads).

Fixpoint reduce_ranges (self : t) (spec : list AllReduceSpecTuple)
    (state : DeviceGrads * DeviceGrads) : result (DeviceGrads * DeviceGrads) :=
  match spec with
  | [] => Ok state
  | spec_tuple :: spec' =>
      state' ← reduce_range self spec_tuple state;
      reduce_ranges self spec' state'
  end.

Definition preprocess_device_grads (self : t) (device_grads : DeviceGrads)
  : result (list Device * DeviceGrads) :=
  '(aggregated_grads, remaining_grads) ←
    reduce_ranges self (_all_reduce_spec self) ([], device_grads);
  _ ← py_assert (negb (py_truthy remaining_grads));
  full_device_set ←
    mapM (λ grads : list GradAndVar,
            gv ← py_index grads 0; Ok (device gv.1)) device_grads;
  Ok (full_device_set, aggregated_grads).

Definition get_gradients_to_apply (self : t) (device_num : Z)
    (gradient_state : DeviceGrads) : result (list GradAndVar) :=
  let device_grads := gradient_state in
  if Z.of_nat (length device_grads) <=? device_num then
    Raise (ValueError
             ("device_num " +:+ pretty device_num
              +:+ " exceeds length of device_grads ("
              +:+ pretty (length device_grads) +:+ ")"))
  else py_index device_grads device_num.

(** Copy initialized values for variables to other devices. *)
Fixpoint post_init_loop (var_by_name : gmap string TfVariable)
    (vars : list TfVariable) (post_init_ops : list (Op Elem))
  : result (list (Op Elem)) :=
  match vars with
  | [] => Ok post_init_ops
  | v :: vars' =>
      let split_name := split "/" (name v) in
      if String.eqb (default "" (head split_name)) "v0"
         || negb (startswith (name v) "v")
      then post_init_loop var_by_name vars' post_init_ops
      else
        let split_name := <[0%nat := "v0"]> split_name in
        copy_from ← py_getitem var_by_name (join "/" split_name);
        post_init_loop var_by_name vars'
          (post_init_ops ++ [Assign v (ReadValue copy_from [] None) [] None])
  end.

Definition get_post_init_ops (global_variables : list TfVariable)
  : result (list (Op Elem)) :=
  let global_vars := global_variables in
  let var_by_name := py_dict ((λ v, (name v, v)) <$> global_vars) in
  post_init_loop var_by_name global_vars [].

Fixpoint savable_loop (vars params : list TfVariable) : list TfVariable :=
  match vars with
  | [] => params
  | v :: vars' =>
      let split_name := split "/" (name v) in
      if String.eqb (default "" (head split_name)) "v0"
         || negb (startswith (name v) "v")
      then savable_loop vars' (params ++ [v])
      else savable_loop vars' params
  end.

(** Return the set of variables used for saving/loading the model. *)
Definition savable_variables (global_variables : list TfVariable)
  : list TfVariable :=
  savable_loop global_variables [].
End defs.
End VariableMgrDistributedAllReduce.

(** ** [class VariableMgrDistributedFetchFromPS] and its staged subclass *)

Module VariableMgrDistributedFetchFromPS.
Section defs.
Context `{TensorFlow} `{!VariableMgrUtil}.

Definition t : Type := VariableMgr.t.

Definition each_tower_has_variables : bool := false.

Definition preprocess_device_grads (self : t) (device_grads : DeviceGrads)
  : list Device * DeviceGrads :=
  ([param_server_device (VariableMgr.benchmark_cnn self)], device_grads).

Definition get_gradients_to_apply (self : t) (device_num : Z)
    (gradient_state : DeviceGrads) : result (list GradAndVar * t) :=
  _ ← py_assert (device_num =? 0);
  '(agg_grads, flag) ←
    aggregate_gradients_using_copy
      gradient_state true
      (enable_auto_loss_scale (VariableMgr.benchmark_cnn self));
  Ok (agg_grads, VariableMgr.set_grad_has_inf_nan self flag).
End defs.
End VariableMgrDistributedFetchFromPS.

(** [VariableMgrDistributedFetchFromStagedPS] overrides neither
    [preprocess_device_grads] nor [get_gradients_to_apply]. *)
Module VariableMgrDistributedFetchFromStagedPS.
Section defs.
Context `{TensorFlow} `{!VariableMgrUtil}.
Definition t : Type := VariableMgr.t.
Definition supports_staged_vars : bool := true.
Definition preprocess_device_grads :=
  VariableMgrDistributedFetchFromPS.preprocess_device_grads.
Definition get_gradients_to_apply :=
  VariableMgrDistributedFetchFromPS.get_gradients_to_apply.
End defs.
End VariableMgrDistributedFetchFromStagedPS.

(** ** [class VariableMgrDistributedReplicated] *)

(** [s.endswith(suffix)] and [s[:-k]] for a positive [k]. *)
Definition endswith (s suffix : string) : bool :=
  let n := String.length s in
  let m := String.length suffix in
  (m <=? n)%nat && String.eqb (substring (n - m) m s) suffix.
Definition drop_last (k : nat) (s : string) : string :=
  substring 0 (String.length s - k) s.

(** [s[n:]] *)
Definition slice_from (n : nat) (s : string) : string :=
  substring n (String.length s - n) s.

(** [c in s] for a character [c]. *)
Fixpoint contains (c : ascii) (s : string) : bool :=
  match s with
  | EmptyString => false
  | String b s' => Ascii.eqb c b || contains c s'
  end.

Module VariableMgrDistributedReplicated.
Section defs.
Context `{TensorFlow} `{!VariableMgrUtil}.

Definition t : Type := VariableMgr.t.

Definition each_tower_has_variables : bool := true.

Definition preprocess_device_grads (self : t) (device_grads : DeviceGrads)
  : list Device * DeviceGrads :=
  ([param_server_device (VariableMgr.benchmark_cnn self)], device_grads).

(** The shadow variable on a parameter server for one original trainable
    variable. *)
Definition make_shadow (gv : GradAndVar) : result GradAndVar :=
  let '(g, v) := gv in
  let my_name := PS_SHADOW_VAR_PREFIX +:+ "/" +:+ name v in
  let my_name :=
    if endswith my_name ":0" then drop_last 2 my_name else my_name in
  new_v ← get_variable my_name v;
  Ok (g, new_v).

Definition get_gradients_to_apply (self : t) (device_num : Z)
    (gradient_state : DeviceGrads) : result (list GradAndVar * t) :=
  let device_grads := gradient_state in
  let '(avg_grads, flag) :=
    aggregate_gradients_using_copy_with_device_selection
      (VariableMgr.benchmark_cnn self) device_grads true
      (enable_auto_loss_scale (VariableMgr.benchmark_cnn self)) in
  avg_grads ← mapM make_shadow avg_grads;
  Ok (avg_grads, VariableMgr.set_grad_has_inf_nan self flag).

(** The barrier that follows the apply operation of parameter [i]. *)
Definition barrier_of (self : t) (i : nat) (gv : GradAndVar) : Op Elem :=
  let apply_gradient_op := ApplyGradients [gv] in
  add_sync_queues_and_barrier (VariableMgr.benchmark_cnn self)
    ("replicate_variable_" +:+ pretty i) [apply_gradient_op].

(** The body of the loop over [enumerate(grads)]: apply the combined
    gradient on the parameter server, wait for all other servers to do
    this, then assign the updated value to every tower's copy. *)
Definition replicate_variable (self : t) (device_grads : DeviceGrads)
    (i : nat) (gv : GradAndVar) : result (list (Op Elem)) :=
  let cnn := VariableMgr.benchmark_cnn self in
  let barrier := barrier_of self i gv in
  let updated_value := ReadValue gv.2 [barrier] (Some (cpu_device cnn)) in
  mapM (λ my_d : nat,
          tower ← py_index device_grads (Z.of_nat my_d);
          tower_gv ← py_index tower (Z.of_nat i);
          Ok (Assign tower_gv.2 updated_value [barrier]
                (Some (cpu_device cnn))))
       (seq 0 (length (devices cnn))).

Fixpoint apply_loop (self : t) (device_grads : DeviceGrads)
    (i : nat) (grads : list GradAndVar) : result (list (Op Elem)) :=
  match grads with
  | [] => Ok []
  | gv :: grads' =>
      ops ← replicate_variable self device_grads i gv;
      ops' ← apply_loop self device_grads (S i) grads';
      Ok (ops ++ ops')
  end.

(** Returns a list of ops for updating gradients. *)
Definition get_apply_gradients_ops_func (self : t)
    (device_grads : DeviceGrads) (grads : list GradAndVar)
  : result (list (Op Elem)) :=
  apply_loop self device_grads 0 grads.

Definition append_apply_gradients_ops (self : t)
    (gradient_state : DeviceGrads) (grads : list GradAndVar)
    (training_ops : list (Op Elem)) (loss_scale_params : LossScaleParams)
  : result (list (Op Elem)) :=
  let device_grads := gradient_state in
  append_gradients_with_loss_scale
    training_ops
    (λ _, get_apply_gradients_ops_func self device_grads grads)
    loss_scale_params (VariableMgr.grad_has_inf_nan self).

Definition _strip_port (s : string) : string :=
  if endswith s ":0" then drop_last 2 s else s.

(** The inner loop of [get_post_init_ops]: for every tower that has a local
    variable under the name ['v%s%s' % (i, prefix)], copy [v] to it. *)
Fixpoint copy_to_towers (local_var_by_name : gmap string TfVariable)
    (v : TfVariable) (prefix : string) (towers : list nat) : list (Op Elem) :=
  match towers with
  | [] => []
  | i :: towers' =>
      let name := "v" +:+ pretty i +:+ prefix in
      match local_var_by_name !! name with
      | Some copy_to =>
          Assign copy_to (ReadValue v [] None) [] None
          :: copy_to_towers local_var_by_name v prefix towers'
      | None => copy_to_towers local_var_by_name v prefix towers'
      end
  end.

(** The outer loop of [get_post_init_ops], over the global variables. *)
Fixpoint post_init_loop (local_var_by_name : gmap string TfVariable)
    (num_gpus : nat) (vars : list TfVariable) : list (Op Elem) :=
  match vars with
  | [] => []
  | v :: vars' =>
      if startswith (name v) (PS_SHADOW_VAR_PREFIX +:+ "/v0/") then
        let prefix :=
          _strip_port
            (slice_from (String.length (PS_SHADOW_VAR_PREFIX +:+ "/v0"))
                        (name v)) in
        copy_to_towers local_var_by_name v prefix (seq 0 num_gpus)
        ++ post_init_loop local_var_by_name num_gpus vars'
      else post_init_loop local_var_by_name num_gpus vars'
  end.

(** Copy initialized variables for variables on the parameter server to the
    local copy of the variable. *)
Definition get_post_init_ops (self : t)
    (global_variables local_variables : list TfVariable) : list (Op Elem) :=
  let local_vars := local_variables in
  let local_var_by_name :=
    py_dict ((λ v, (_strip_port (name v), v)) <$> local_vars) in
  post_init_loop local_var_by_name (num_gpus (VariableMgr.benchmark_cnn self))
    global_variables.

Definition _remove_shadow_var_prefix_if_present (var_name : string) : string :=
  if startswith var_name (PS_SHADOW_VAR_PREFIX +:+ "/") then
    slice_from (String.length (PS_SHADOW_VAR_PREFIX +:+ "/")) var_name
  else var_name.

Definition var_dict_name (v : TfVariable) : string :=
  _strip_port (_remove_shadow_var_prefix_if_present (name v)).

(** The names a global variable may have besides those of the shadow
    variables. *)
Definition is_step_or_loss_scale (var_name : string) : bool :=
  String.eqb var_name "global_step:0"
  || String.eqb var_name "loss_scale:0"
  || String.eqb var_name "loss_scale_normal_steps:0".

(** The first loop of [savable_variables], over the global variables. *)
Fixpoint savable_globals (vars : list TfVariable)
    (params : gmap string TfVariable) : result (gmap string TfVariable) :=
  match vars with
  | [] => Ok params
  | v :: vars' =>
      _ ← py_assert
            (startswith (name v) (PS_SHADOW_VAR_PREFIX +:+ "/v0/")
             || is_step_or_loss_scale (name v));
      let name := _strip_port (_remove_shadow_var_prefix_if_present (name v)) in
      savable_globals vars' (<[name := v]> params)
  end.

(** The second loop, over the local variables: those of tower 0 that are
    not trainable have no shadow variable and are added. *)
Fixpoint savable_locals (trainable_variables vars : list TfVariable)
    (params : gmap string TfVariable) : gmap string TfVariable :=
  match vars with
  | [] => params
  | v :: vars' =>
      if startswith (name v) "v0/"
         && negb (bool_decide (v ∈ trainable_variables))
      then savable_locals trainable_variables vars'
             (<[_strip_port (name v) := v]> params)
      else savable_locals trainable_variables vars' params
  end.

(** Returns a list/dict of savable variables to pass to tf.train.Saver. *)
Definition savable_variables
    (global_variables local_variables trainable_variables : list TfVariable)
  : result (gmap string TfVariable) :=
  params ← savable_globals global_variables ∅;
  Ok (savable_locals trainable_variables local_variables params).
End defs.
End VariableMgrDistributedReplicated.

(** ** Choosing a variable manager

    BenchmarkCNN holds one of the eight managers and calls the methods of
    the interface on it. *)

Section dispatch.
Context `{TensorFlow} `{!AllReduce} `{!VariableMgrUtil}.

Inductive variable_mgr : Type :=
| Independent (self : VariableMgrIndependent.t)
| LocalFetchFromPS (self : VariableMgrLocalFetchFromPS.t)
| LocalFetchFromStagedPS (self : VariableMgrLocalFetchFromStagedPS.t)
| LocalReplicated (self : VariableMgrLocalReplicated.t)
| DistributedAllReduce (self : VariableMgrDistributedAllReduce.t)
| DistributedFetchFromPS (self : VariableMgrDistributedFetchFromPS.t)
| DistributedFetchFromStagedPS (self : VariableMgrDistributedFetchFromStagedPS.t)
| DistributedReplicated (self : VariableMgrDistributedReplicated.t).

Definition benchmark_cnn (mgr : variable_mgr) : BenchmarkCNN :=
  match mgr with
  | Independent self | LocalFetchFromPS self | LocalFetchFromStagedPS self
  | DistributedFetchFromPS self | DistributedFetchFromStagedPS self
  | DistributedReplicated self => VariableMgr.benchmark_cnn self
  | LocalReplicated self =>
      VariableMgr.benchmark_cnn (VariableMgrLocalReplicated.base self)
  | DistributedAllReduce self =>
      VariableMgr.benchmark_cnn (VariableMgrDistributedAllReduce.base self)
  end.

Definition each_tower_has_variables (mgr : variable_mgr) : bool :=
  match mgr with
  | Independent _ => VariableMgrIndependent.each_tower_has_variables
  | LocalFetchFromPS _ | LocalFetchFromStagedPS _ =>
      VariableMgrLocalFetchFromPS.each_tower_has_variables
  | LocalReplicated _ => VariableMgrLocalReplicated.each_tower_has_variables
  | DistributedAllReduce _ =>
      VariableMgrDistributedAllReduce.each_tower_has_variables
  | DistributedFetchFromPS _ | DistributedFetchFromStagedPS _ =>
      VariableMgrDistributedFetchFromPS.each_tower_has_variables
  | DistributedReplicated _ =>
      VariableMgrDistributedReplicated.each_tower_has_variables
  end.

(** The managers that apply the combined gradients to variables held on
    the parameter server: the fetch-from-PS managers, whose "variables are
    stored on a parameter server", and the distributed replicated one,
    which makes a "shadow variable on a parameter server for each original
    trainable variable" and updates that. The others update every
    tower's own copy. *)
Definition applies_on_parameter_server (mgr : variable_mgr) : bool :=
  match mgr with
  | LocalFetchFromPS _ | LocalFetchFromStagedPS _
  | DistributedFetchFromPS _ | DistributedFetchFromStagedPS _
  | DistributedReplicated _ => true
  | Independent _ | LocalReplicated _ | DistributedAllReduce _ => false
  end.

(** [mgr.preprocess_device_grads(device_grads)]: the devices to apply the
    gradients on and the gradient state. *)
Definition preprocess_device_grads (mgr : variable_mgr)
    (device_grads : DeviceGrads) : result (list Device * DeviceGrads) :=
  match mgr with
  | Independent self =>
      Ok (VariableMgrIndependent.preprocess_device_grads self device_grads)
  | LocalFetchFromPS self =>
      Ok (VariableMgrLocalFetchFromPS.preprocess_device_grads self device_grads)
  | LocalFetchFromStagedPS self =>
      Ok (VariableMgrLocalFetchFromStagedPS.preprocess_device_grads
            self device_grads)
  | LocalReplicated self =>
      fst <$> VariableMgrLocalReplicated.preprocess_device_grads
                self device_grads
  | DistributedAllReduce self =>
      VariableMgrDistributedAllReduce.preprocess_device_grads self device_grads
  | DistributedFetchFromPS self =>
      Ok (VariableMgrDistributedFetchFromPS.preprocess_device_grads
            self device_grads)
  | DistributedFetchFromStagedPS self =>
      Ok (VariableMgrDistributedFetchFromStagedPS.preprocess_device_grads
            self device_grads)
  | DistributedReplicated self =>
      Ok (VariableMgrDistributedReplicated.preprocess_device_grads
            self device_grads)
  end.

(** [mgr.get_gradients_to_apply(device_num, gradient_state)] *)
Definition get_gradients_to_apply (mgr : variable_mgr) (device_num : Z)
    (gradient_state : DeviceGrads) : result (list GradAndVar) :=
  match mgr with
  | Independent self =>
      fst <$> VariableMgrIndependent.get_gradients_to_apply
                self device_num gradient_state
  | LocalFetchFromPS self =>
      fst <$> VariableMgrLocalFetchFromPS.get_gradients_to_apply
                self device_num gradient_state
  | LocalFetchFromStagedPS self =>
      fst <$> VariableMgrLocalFetchFromStagedPS.get_gradients_to_apply
                self device_num gradient_state
  | LocalReplicated self =>
      VariableMgrLocalReplicated.get_gradients_to_apply
        self device_num gradient_state
  | DistributedAllReduce self =>
      VariableMgrDistributedAllReduce.get_gradients_to_apply
        self device_num gradient_state
  | DistributedFetchFromPS self =>
      fst <$> VariableMgrDistributedFetchFromPS.get_gradients_to_apply
                self device_num gradient_state
  | DistributedFetchFromStagedPS self =>
      fst <$> VariableMgrDistributedFetchFromStagedPS.get_gradients_to_apply
                self device_num gradient_state
  | DistributedReplicated self =>
      fst <$> VariableMgrDistributedReplicated.get_gradients_to_apply
                self device_num gradient_state
  end.
End dispatch.

(** ** What the design document says, in its own words *)

(** The variables of replica [device_num] are those created inside its
    outer variable scope, so the first component of their name is the name
    of that scope. *)
Definition in_variable_scope (device_num : Z) (v : TfVariable) : Prop :=
  head (split "/" (name v))
  = Some (VariableMgrLocalReplicated.create_outer_variable_scope device_num).

#[global] Instance in_variable_scope_dec device_num v :
  Decision (in_variable_scope device_num v).
Proof. unfold in_variable_scope. apply _. Defined.

(** The name of the replica-0 variable that corresponds to [v]: the first
    component of the name of [v] replaced by ["v0"]. *)
Definition v0_name (v : TfVariable) : string :=
  join "/" ("v0" :: tail (split "/" (name v))).

(** Looking a variable up by name among the global variables; of several
    variables with one name the last one is found. *)
Definition lookup_by_name (global_variables : list TfVariable) (key : string)
  : result TfVariable :=
  match last (filter (λ v, name v = key) global_variables) with
  | Some v => Ok v
  | None => Raise (KeyError key)
  end.

(** The post-initialization operations as the document describes them: for
    each variable whose name starts with ['v'] but that is not in scope
    ['v0'], one assignment from the same-named ['v0']-scoped variable; the
    ['v0']-scoped variables and those whose name does not start with ['v']
    are skipped. *)
Definition copy_from_v0 {E} (global_variables : list TfVariable)
    (v : TfVariable) : result (Op E) :=
  copy_from ← lookup_by_name global_variables (v0_name v);
  Ok (Assign v (ReadValue copy_from [] None) [] None).

Definition post_init_ops_described {E} (global_variables : list TfVariable)
  : result (list (Op E)) :=
  mapM (copy_from_v0 global_variables)
       (filter (λ v, ¬ in_variable_scope 0 v ∧ startswith (name v) "v" = true)
               global_variables).

(** The variables to save as the document describes them: the
    ['v0']-scoped variables plus every variable whose name does not start
    with ['v']. *)
Definition savable_variables_described (global_variables : list TfVariable)
  : list TfVariable :=
  filter (λ v, in_variable_scope 0 v ∨ startswith (name v) "v" = false)
         global_variables.

(** All replicas' gradients at parameter position [j], in replica order. *)
Definition gradients_at `{TensorFlow} (device_grads : DeviceGrads) (j : nat)
  : list (Tensor Elem) :=
  omap (λ tower : list GradAndVar, fst <$> tower !! j) device_grads.

(** The gradients each range of an all-reduce spec takes, in order, and
    what remains after the last range: the loop of
    [VariableMgrDistributedAllReduce.preprocess_device_grads] without the
    reductions. *)
Fixpoint take_ranges `{TensorFlow} `{!AllReduce}
    (spec : list AllReduceSpecTuple) (remaining_grads : DeviceGrads)
  : result (list DeviceGrads * DeviceGrads) :=
  match spec with
  | [] => Ok ([], remaining_grads)
  | spec_tuple :: spec' =>
      '(this_grads, remaining_grads) ←
        VariableMgrDistributedAllReduce.take_range spec_tuple remaining_grads;
      '(parts, final) ← take_ranges spec' remaining_grads;
      Ok (this_grads :: parts, final)
  end.

(** The assignment that writes the updated value of parameter [i], read
    after its barrier, to the copy [ref]. *)
Definition broadcast_assign `{TensorFlow}
    (self : VariableMgrDistributedReplicated.t) (i : nat) (gv : GradAndVar)
    (ref : TfVariable) : Op Elem :=
  let cnn := VariableMgr.benchmark_cnn self in
  let barrier := VariableMgrDistributedReplicated.barrier_of self i gv in
  Assign ref (ReadValue gv.2 [barrier] (Some (cpu_device cnn))) [barrier]
    (Some (cpu_device cnn)).








(** ** Notions the further properties are stated with *)

(** A global variable that passes the assertion of
    [VariableMgrDistributedReplicated.savable_variables]. *)
Definition valid_global `{TensorFlow} `{!VariableMgrUtil} (v : TfVariable)
  : Prop :=
  startswith (name v) (PS_SHADOW_VAR_PREFIX +:+ "/v0/") = true
  ∨ VariableMgrDistributedReplicated.is_step_or_loss_scale (name v) = true.

(** A local variable the second loop of that function adds. *)
Definition saved_local (trainable_variables : list TfVariable)
    (v : TfVariable) : Prop :=
  startswith (name v) "v0/" = true ∧ v ∉ trainable_variables.

(** The variable an assignment writes. *)
Definition assigned_to {E} (op : Op E) : option TfVariable :=
  match op with
  | Assign ref _ _ _ => Some ref
  | _ => None
  end.

(** ** A small TensorFlow for worked examples

    Integers with an infinity and a NaN stand for the floating-point
    elements, and simple stand-ins for the collaborators [allreduce] and
    [variable_mgr_util].  Only the examples at the end of the file use them;
    every theorem is stated for arbitrary collaborators. *)

Module Sample.
Inductive elem : Type := Num (z : Z) | Inf | NaN.

Definition elem_is_finite (e : elem) : bool :=
  match e with Num _ => true | _ => false end.

Definition elem_add (a b : elem) : elem :=
  match a, b with
  | Num x, Num y => Num (x + y)
  | NaN, _ | _, NaN => NaN
  | _, _ => Inf
  end.

Definition elem_div (e : elem) (n : nat) : elem :=
  match e with Num x => Num (x / Z.of_nat n) | _ => e end.

Definition tensor_add (t u : Tensor elem) : Tensor elem :=
  mkTensor (shape t) (zip_with elem_add (values t) (values u)) (device t).

Definition tensor_add_n (ts : list (Tensor elem)) : Tensor elem :=
  match ts with
  | [] => mkTensor [] [] ""
  | t :: ts' => foldl tensor_add t ts'
  end.

Definition tensorflow : TensorFlow := {|
  Elem := elem;
  is_finite := elem_is_finite;
  add_n := tensor_add_n;
  multiply_reciprocal t n :=
    mkTensor (shape t) ((λ e, elem_div e n) <$> values t) (device t);
  get_variable my_name _ := Ok (mkVariable (my_name +:+ ":0"));
|}.

(** One range per [':']-separated piece, each taking all that remains. *)
Definition parse (s : string) : result (list AllReduceSpecTuple) :=
  Ok ((λ piece, mkAllReduceSpecTuple piece 1 (-1)) <$> split ":" s).

Section collaborators.
#[local] Existing Instance tensorflow.

(** The gradients of at most [threshold] elements, and the others; a
    tower left without gradients is dropped. *)
Definition split_by_size (threshold : Z) (device_grads : DeviceGrads)
  : DeviceGrads * DeviceGrads :=
  let small (gv : GradAndVar) :=
    bool_decide (Z.of_nat (tf_size gv.1) ≤ threshold) in
  (filter (λ dl, dl ≠ []) (filter (λ gv, small gv = true) <$> device_grads),
   filter (λ dl, dl ≠ []) (filter (λ gv, small gv = false) <$> device_grads)).

(** Every tower receives the sums, paired with its own variables. *)
Definition sum_all_reduce (device_grads : DeviceGrads) : DeviceGrads :=
  let sums :=
    (aggregate_gradients_using_copy_with_device_selection
       (mkBenchmarkCNN [] [] "" "" [] 0 false "" (mkParams false 0))
       device_grads false false).1 in
  (λ arr : list GradAndVar,
     zip_with (λ (av ag : GradAndVar), (ag.1, av.2)) arr sums)
  <$> device_grads.

Definition allreduce : AllReduce := {|
  parse_all_reduce_spec := parse;
  build_all_reduce_device_prefixes job_name _ := Ok ["/job:" +:+ job_name];
  split_grads_by_size threshold device_grads :=
    Ok (split_by_size threshold device_grads);
  sum_gradients_all_reduce _ device_grads _ _ _ _ _ _ :=
    Ok (sum_all_reduce device_grads);
|}.

(** The hierarchical copy of a single tower is the identity. *)
Definition variable_mgr_util : VariableMgrUtil := {|
  PS_SHADOW_VAR_PREFIX := "ps_var";
  LossScaleParams := unit;
  aggregate_gradients_using_hierarchical_copy V _ tower_grads _ _ :=
    Ok (tower_grads, None);
  aggregate_gradients_using_copy_with_variable_colocation
    tower_grads use_mean check_inf_nan :=
    Ok (aggregate_gradients_using_copy_with_device_selection
          (mkBenchmarkCNN [] [] "" "" [] 0 false "" (mkParams false 0))
          tower_grads use_mean check_inf_nan);
  aggregate_gradients_using_copy tower_grads use_mean check_inf_nan :=
    Ok (aggregate_gradients_using_copy_with_device_selection
          (mkBenchmarkCNN [] [] "" "" [] 0 false "" (mkParams false 0))
          tower_grads use_mean check_inf_nan);
  append_gradients_with_loss_scale training_ops get_ops _ _ :=
    ops ← get_ops tt; Ok (training_ops ++ ops);
|}.

(** A hierarchical copy that does reduce: every tower receives, on the
    device of its own gradient, the sums over the towers. *)
Definition hierarchical_sum {V} (tower_grads : list (list (Tensor elem * V)))
  : list (list (Tensor elem * V)) :=
  let sums := (λ col, tensor_add_n (fst <$> col)) <$> columns tower_grads in
  (λ arr : list (Tensor elem * V),
     zip_with (λ (av : Tensor elem * V) g,
                 (mkTensor (shape g) (values g) (device av.1), av.2))
              arr sums)
  <$> tower_grads.

Definition variable_mgr_util_sum : VariableMgrUtil := {|
  PS_SHADOW_VAR_PREFIX := "ps_var";
  LossScaleParams := unit;
  aggregate_gradients_using_hierarchical_copy V _ tower_grads _ _ :=
    Ok (hierarchical_sum tower_grads, None);
  aggregate_gradients_using_copy_with_variable_colocation
    tower_grads use_mean check_inf_nan :=
    Ok (aggregate_gradients_using_copy_with_device_selection
          (mkBenchmarkCNN [] [] "" "" [] 0 false "" (mkParams false 0))
          tower_grads use_mean check_inf_nan);
  aggregate_gradients_using_copy tower_grads use_mean check_inf_nan :=
    Ok (aggregate_gradients_using_copy_with_device_selection
          (mkBenchmarkCNN [] [] "" "" [] 0 false "" (mkParams false 0))
          tower_grads use_mean check_inf_nan);
  append_gradients_with_loss_scale training_ops get_ops _ _ :=
    ops ← get_ops tt; Ok (training_ops ++ ops);
|}.
End collaborators.

(** Two towers with two parameters each, and managers over them. *)
Definition tensor (dev : Device) (xs : list elem) : Tensor elem :=
  mkTensor [length xs] xs dev.

Definition cnn2 : BenchmarkCNN :=
  mkBenchmarkCNN ["/gpu:0"; "/gpu:1"] ["/gpu:0"; "/gpu:1"] "/cpu:0" "/cpu:0"
    [0; 1] 2 true "cpu" (mkParams false 0).

Definition device_grads2 : list (list (Tensor elem * TfVariable)) :=
  [[(tensor "/gpu:0" [Num 1; Num 2], mkVariable "v0/w:0");
    (tensor "/gpu:0" [Num 10], mkVariable "v0/b:0")];
   [(tensor "/gpu:1" [Num 3; Num 4], mkVariable "v1/w:0");
    (tensor "/gpu:1" [Num 20], mkVariable "v1/b:0")]].

(** The same towers with a NaN in the first gradient of tower 1 only. *)
Definition device_grads_nan : list (list (Tensor elem * TfVariable)) :=
  [[(tensor "/gpu:0" [Num 1; Num 2], mkVariable "v0/w:0");
    (tensor "/gpu:0" [Num 10], mkVariable "v0/b:0")];
   [(tensor "/gpu:1" [Num 3; NaN], mkVariable "v1/w:0");
    (tensor "/gpu:1" [Num 20], mkVariable "v1/b:0")]].




Definition global_variables : list TfVariable :=
  [mkVariable "v0/w:0"; mkVariable "v1/w:0"; mkVariable "global_step:0"].

(** The combined gradients with their shadow variables. *)
Definition shadow_grads : list (Tensor elem * TfVariable) :=
  [(tensor "/gpu:0" [Num 2; Num 3], mkVariable "ps_var/v0/w:0");
   (tensor "/gpu:0" [Num 15], mkVariable "ps_var/v0/b:0")].

(** The variables of a distributed replicated job with two towers: the
    shadow variables and the step counter are global; the weights and the
    moving averages of the towers are local, the weights trainable. *)
Definition shadow_globals : list TfVariable :=
  [mkVariable "ps_var/v0/w:0"; mkVariable "global_step:0"].
Definition local_variables : list TfVariable :=
  [mkVariable "v0/w:0"; mkVariable "v0/moving_mean:0";
   mkVariable "v1/w:0"; mkVariable "v1/moving_mean:0"].
Definition trainable_variables : list TfVariable :=
  [mkVariable "v0/w:0"; mkVariable "v1/w:0"].

Section managers.
#[local] Existing Instance tensorflow.
#[local] Existing Instance allreduce.
#[local] Existing Instance variable_mgr_util.

Definition independent : VariableMgrIndependent.t :=
  VariableMgr.__init__ cnn2.
Definition local_replicated : VariableMgrLocalReplicated.t :=
  VariableMgrLocalReplicated.mk (VariableMgr.__init__ cnn2) None 0 0.
(** A first range for the gradients of at most one element, and a
    second one for the rest. *)
Definition distributed_all_reduce : VariableMgrDistributedAllReduce.t :=
  VariableMgrDistributedAllReduce.mk (VariableMgr.__init__ cnn2)
    [mkAllReduceSpecTuple "nccl" 1 1; mkAllReduceSpecTuple "nccl" 1 (-1)]
    ["/job:worker"] 1 0 0.
Definition distributed_replicated : VariableMgrDistributedReplicated.t :=
  VariableMgr.__init__ cnn2.
Definition distributed_fetch_from_ps : VariableMgrDistributedFetchFromPS.t :=
  VariableMgr.__init__ cnn2.
End managers.
End Sample.

(** * Properties *)

(** ** Calls that may raise *)

Section result_lemmas.
Context {A B : Type}.
Implicit Types (f : A → result B) (l : list A).

Lemma bind_Ok (m : result A) f b :
  m ≫= f = Ok b ↔ ∃ a, m = Ok a ∧ f a = Ok b.
Proof.
  destruct m as [a|e]; simpl; split.
  - eauto.
  - by intros (? & [= <-] & ?).
  - done.
  - by intros (? & ? & ?).
Qed.

Lemma fmap_Ok (g : A → B) (m : result A) b :
  g <$> m = Ok b ↔ ∃ a, m = Ok a ∧ b = g a.
Proof.
  destruct m as [a|e]; simpl; split.
  - intros [= <-]. eauto.
  - by intros (? & [= <-] & ->).
  - done.
  - by intros (? & ? & ?).
Qed.

End result_lemmas.

Section mapM_lemmas.
Context {A B : Type}.
Implicit Types (f : A → result B) (l : list A).

Lemma mapM_Ok_cons f x l :
  mapM f (x :: l) = y ← f x; k ← mapM f l; Ok (y :: k).
Proof. done. Qed.

Lemma mapM_Ok_Forall2 f l k :
  mapM f l = Ok k ↔ Forall2 (λ x y, f x = Ok y) l k.
Proof.
  revert k. induction l as [|x l IH]; intros k.
  - split; [intros [= <-]; constructor|by inversion 1].
  - rewrite mapM_Ok_cons. split.
    + intros (y & Hy & (k' & Hk' & [= <-])%bind_Ok)%bind_Ok.
      constructor; [done|by apply IH].
    + inversion 1 as [|? y ? k' Hy Hk']; subst.
      apply IH in Hk'. by rewrite Hy, Hk'.
Qed.

Lemma mapM_Ok_length f l k : mapM f l = Ok k → length k = length l.
Proof. intros Hk%mapM_Ok_Forall2. symmetry. by eapply Forall2_length. Qed.

Lemma mapM_Ok_total f l :
  Forall (λ x, ∃ y, f x = Ok y) l → ∃ k, mapM f l = Ok k.
Proof.
  induction 1 as [|x l [y Hy] _ [k Hk]]; [by exists []|].
  exists (y :: k). by rewrite mapM_Ok_cons, Hy, Hk.
Qed.

Lemma mapM_Ok_pure (g : A → B) l : mapM (λ x, Ok (g x)) l = Ok (g <$> l).
Proof. induction l as [|x l IH]; [done|]. by rewrite mapM_Ok_cons, IH. Qed.
End mapM_lemmas.

(** Indexing a Python list with an index that is in range. *)
Lemma py_index_Some {A} (l : list A) (i : nat) x :
  l !! i = Some x → py_index l (Z.of_nat i) = Ok x.
Proof.
  intros Hx. pose proof (lookup_lt_Some _ _ _ Hx) as Hlt. unfold py_index.
  replace (0 <=? Z.of_nat i) with true by (symmetry; apply Z.leb_le; lia).
  replace (Z.of_nat i <? Z.of_nat (length l)) with true
    by (symmetry; apply Z.ltb_lt; lia).
  simpl. by rewrite Nat2Z.id, Hx.
Qed.

(** An index at or beyond the length raises. *)
Lemma py_index_ge {A} (l : list A) (i : Z) :
  Z.of_nat (length l) ≤ i → py_index l i = Raise IndexError.
Proof.
  intros Hge. unfold py_index.
  replace (i <? Z.of_nat (length l)) with false
    by (symmetry; apply Z.ltb_ge; lia).
  replace (i <? 0) with false by (symmetry; apply Z.ltb_ge; lia).
  by rewrite !andb_false_r.
Qed.

(** Whenever indexing returns, it returns an element of the list. *)
Lemma py_index_Ok_elem {A} (l : list A) (i : Z) x :
  py_index l i = Ok x → x ∈ l.
Proof.
  unfold py_index. intros Hx.
  repeat case_match; simplify_eq; by eapply list_elem_of_lookup_2.
Qed.

(** ** Names and the dictionary of variables *)

Lemma split_head sep s : ∃ piece pieces, split sep s = piece :: pieces.
Proof.
  destruct s as [|c s]; simpl; [by eauto|].
  destruct (Ascii.eqb c sep); [by eauto|].
  destruct (split sep s); eauto.
Qed.

(** The first piece of a name is a prefix of the name. *)
Lemma split_head_prefix sep s piece pieces :
  split sep s = piece :: pieces → startswith s piece = true.
Proof.
  revert piece pieces. induction s as [|c s IH]; simpl; intros piece pieces.
  - by intros [= <- <-].
  - destruct (Ascii.eqb c sep); [by intros [= <- <-]|].
    destruct (split sep s) as [|p ps] eqn:Hs.
    + destruct (split_head sep s) as (? & ? & ?); congruence.
    + intros [= <- <-]. simpl. rewrite Ascii.eqb_refl. by eapply IH.
Qed.

Lemma startswith_trans_v piece s :
  startswith s piece = true → startswith piece "v" = true →
  startswith s "v" = true.
Proof.
  destruct piece as [|c piece], s as [|c' s]; cbn [startswith]; try done.
  intros [Hc _]%andb_true_iff. by apply Ascii.eqb_eq in Hc as ->.
Qed.

Lemma is_v0_or_unscoped_described v :
  VariableMgrLocalReplicated.is_v0_or_unscoped v = true
  ↔ in_variable_scope 0 v ∨ startswith (name v) "v" = false.
Proof.
  unfold VariableMgrLocalReplicated.is_v0_or_unscoped, in_variable_scope.
  destruct (split_head "/" (name v)) as (piece & pieces & ->). simpl.
  rewrite orb_true_iff, negb_true_iff, String.eqb_eq.
  change (VariableMgrLocalReplicated.create_outer_variable_scope 0) with "v0".
  split; (intros [?|?]; [left|right]); by simplify_eq.
Qed.

(** A variable of another replica is not one the test lets through. *)
Lemma other_scope_not_v0_or_unscoped device_num v :
  device_num ≠ 0 → in_variable_scope device_num v →
  VariableMgrLocalReplicated.is_v0_or_unscoped v = false.
Proof.
  intros Hne Hscope. apply not_true_is_false.
  intros [Hzero|Hv]%is_v0_or_unscoped_described.
  - unfold in_variable_scope in *. rewrite Hscope in Hzero.
    unfold VariableMgrLocalReplicated.create_outer_variable_scope in Hzero.
    cbn [String.append] in Hzero. injection Hzero as Hzero.
    change (pretty device_num = pretty 0) in Hzero.
    by apply (inj (@pretty Z _)) in Hzero.
  - unfold in_variable_scope in Hscope.
    destruct (split_head "/" (name v)) as (piece & pieces & Hsplit).
    rewrite Hsplit in Hscope. injection Hscope as ->.
    apply split_head_prefix in Hsplit.
    by rewrite (startswith_trans_v _ _ Hsplit) in Hv.
Qed.

Lemma savable_loop_described vars params :
  VariableMgrLocalReplicated.savable_loop vars params
  = params ++ savable_variables_described vars.
Proof.
  unfold savable_variables_described.
  revert params. induction vars as [|v vars IH]; intros params; simpl.
  - by rewrite app_nil_r.
  - rewrite filter_cons.
    destruct (VariableMgrLocalReplicated.is_v0_or_unscoped v) eqn:Hv.
    + apply is_v0_or_unscoped_described in Hv.
      rewrite decide_True by done. by rewrite IH, <-app_assoc.
    + rewrite decide_False; [done|].
      intros Hv'%is_v0_or_unscoped_described. congruence.
Qed.

(** Both managers run the same loop over the variables to save. *)
Lemma savable_loop_same vars params :
  VariableMgrDistributedAllReduce.savable_loop vars params
  = VariableMgrLocalReplicated.savable_loop vars params.
Proof.
  revert params. induction vars as [|v vars IH]; intros params; [done|].
  simpl. unfold VariableMgrLocalReplicated.is_v0_or_unscoped.
  by rewrite !IH.
Qed.

(** [dict] finds the last variable that carries the name. *)
Lemma py_dict_lookup_last (vars : list TfVariable) (d : gmap string TfVariable) key :
  foldl (λ d kv, <[kv.1 := kv.2]> d) d ((λ v, (name v, v)) <$> vars) !! key
  = match last (filter (λ v, name v = key) vars) with
    | Some v => Some v
    | None => d !! key
    end.
Proof.
  revert d. induction vars as [|v vars IH]; intros d; [done|].
  simpl. rewrite IH, filter_cons. destruct (decide (name v = key)) as [<-|Hne].
  - rewrite last_cons. destruct (last (filter _ vars)); [done|].
    by rewrite lookup_insert_eq.
  - destruct (last (filter _ vars)); [done|]. by rewrite lookup_insert_ne.
Qed.

Lemma py_getitem_by_name vars key :
  py_getitem (py_dict ((λ v, (name v, v)) <$> vars)) key
  = lookup_by_name vars key.
Proof.
  unfold py_getitem, py_dict, lookup_by_name.
  rewrite py_dict_lookup_last. by destruct (last _).
Qed.

Lemma join_v0_name v :
  join "/" (<[0%nat := "v0"]> (split "/" (name v))) = v0_name v.
Proof.
  unfold v0_name. by destruct (split_head "/" (name v)) as (? & ? & ->).
Qed.

Section post_init.
Context `{TensorFlow}.

Lemma post_init_loop_described global_variables vars post_init_ops :
  VariableMgrLocalReplicated.post_init_loop
    (py_dict ((λ v, (name v, v)) <$> global_variables)) vars post_init_ops
  = ops ← mapM (copy_from_v0 global_variables)
            (filter (λ v, ¬ in_variable_scope 0 v
                          ∧ startswith (name v) "v" = true) vars);
    Ok (post_init_ops ++ ops).
Proof.
  revert post_init_ops.
  induction vars as [|v vars IH]; intros post_init_ops.
  - simpl. by rewrite app_nil_r.
  - cbn [VariableMgrLocalReplicated.post_init_loop]. rewrite filter_cons.
    destruct (VariableMgrLocalReplicated.is_v0_or_unscoped v) eqn:Hv.
    + apply is_v0_or_unscoped_described in Hv.
      rewrite decide_False; [apply IH|].
      intros [Hscope Hstarts]. destruct Hv; [done|congruence].
    + rewrite decide_True; last first.
      { split.
        - intros Hs. assert (VariableMgrLocalReplicated.is_v0_or_unscoped v = true)
            by (apply is_v0_or_unscoped_described; by left). congruence.
        - apply not_false_is_true. intros Hs.
          assert (VariableMgrLocalReplicated.is_v0_or_unscoped v = true)
            by (apply is_v0_or_unscoped_described; by right). congruence. }
      rewrite mapM_Ok_cons, py_getitem_by_name, join_v0_name.
      change (copy_from_v0 global_variables v)
        with (copy_from ← lookup_by_name global_variables (v0_name v);
              Ok (Assign (E:=Elem) v (ReadValue copy_from [] None) [] None)).
      destruct (lookup_by_name global_variables (v0_name v));
        cbn [mbind result_bind]; [|done].
      rewrite IH.
      destruct (mapM _ _); cbn [mbind result_bind]; [|done].
      by rewrite <-app_assoc.
Qed.

Lemma post_init_loop_same var_by_name vars post_init_ops :
  VariableMgrDistributedAllReduce.post_init_loop var_by_name vars post_init_ops
  = VariableMgrLocalReplicated.post_init_loop var_by_name vars post_init_ops.
Proof.
  revert post_init_ops.
  induction vars as [|v vars IH]; intros post_init_ops; [done|].
  simpl. unfold VariableMgrLocalReplicated.is_v0_or_unscoped.
  rewrite IH. destruct (_ || _); [done|].
  destruct (py_getitem _ _); simpl; [apply IH|done].
Qed.
End post_init.

(** C10: for every list of global variables the local replicated and the
    distributed all-reduce managers return the same post-initialization
    operations and the same variables to save.  The operations are, for each
    variable whose name starts with ['v'] and that is not in scope ['v0'],
    one assignment from the variable of the same name in scope ['v0'] (a
    missing one raises [KeyError]); the saved variables are those in scope
    ['v0'] together with those whose name does not start with ['v']. *)
Theorem post_init_and_savable_agree `{TensorFlow}
    (global_variables : list TfVariable) :
  VariableMgrLocalReplicated.get_post_init_ops global_variables
  = VariableMgrDistributedAllReduce.get_post_init_ops global_variables
  ∧ VariableMgrLocalReplicated.get_post_init_ops global_variables
    = post_init_ops_described global_variables
  ∧ VariableMgrLocalReplicated.savable_variables global_variables
    = VariableMgrDistributedAllReduce.savable_variables global_variables
  ∧ VariableMgrLocalReplicated.savable_variables global_variables
    = savable_variables_described global_variables.
Proof.
  split; [|split; [|split]].
  - unfold VariableMgrLocalReplicated.get_post_init_ops,
      VariableMgrDistributedAllReduce.get_post_init_ops.
    symmetry. apply post_init_loop_same.
  - unfold VariableMgrLocalReplicated.get_post_init_ops.
    rewrite post_init_loop_described. unfold post_init_ops_described.
    by destruct (mapM _ _).
  - unfold VariableMgrLocalReplicated.savable_variables,
      VariableMgrDistributedAllReduce.savable_variables.
    symmetry. apply savable_loop_same.
  - unfold VariableMgrLocalReplicated.savable_variables.
    by rewrite savable_loop_described.
Qed.

(** C9, as amended: in local replicated mode a global variable is saved
    exactly when it is in the scope of replica 0 or its name does not start
    with ['v']; no variable in the scope of another replica is saved. *)
Theorem savable_variables_local_replicated
    (global_variables : list TfVariable) (v : TfVariable) :
  (v ∈ VariableMgrLocalReplicated.savable_variables global_variables
   ↔ v ∈ global_variables
     ∧ (in_variable_scope 0 v ∨ startswith (name v) "v" = false))
  ∧ (∀ device_num, device_num ≠ 0 → in_variable_scope device_num v →
     v ∉ VariableMgrLocalReplicated.savable_variables global_variables).
Proof.
  unfold VariableMgrLocalReplicated.savable_variables.
  rewrite savable_loop_described. simpl.
  unfold savable_variables_described. split.
  - rewrite list_elem_of_filter. tauto.
  - intros device_num Hne Hscope [Hv _]%list_elem_of_filter.
    apply is_v0_or_unscoped_described in Hv.
    by rewrite (other_scope_not_v0_or_unscoped device_num) in Hv.
Qed.

(** C7: both constructors reject an invalid all-reduce spec by raising
    [ValueError] instead of returning a manager: the distributed all-reduce
    one when the spec is [None] or empty, the local replicated one when the
    parsed spec has more than one range. *)
Theorem invalid_all_reduce_spec_raises `{TensorFlow} `{!AllReduce}
    (cnn : BenchmarkCNN) (job_name : string)
    (num_workers max_bytes max_group : Z) :
  VariableMgrDistributedAllReduce.__init__
    cnn None job_name num_workers max_bytes max_group
  = Raise (ValueError
             "distributed_all_reduce requires a non-empty all_reduce_spec")
  ∧ VariableMgrDistributedAllReduce.__init__
      cnn (Some "") job_name num_workers max_bytes max_group
    = Raise (ValueError
               "distributed_all_reduce requires a non-empty all_reduce_spec")
  ∧ ∀ all_reduce_spec spec,
      all_reduce_spec ≠ "" →
      parse_all_reduce_spec all_reduce_spec = Ok spec →
      (1 < length spec)%nat →
      VariableMgrLocalReplicated.__init__
        cnn (Some all_reduce_spec) max_bytes max_group
      = Raise (ValueError
          "replicated mode does not support hybrid all-reduce strategies").
Proof.
  repeat split.
  intros all_reduce_spec spec Hne Hparse Hlen.
  unfold VariableMgrLocalReplicated.__init__.
  destruct all_reduce_spec; [done|]. rewrite Hparse. simpl.
  destruct spec as [|? [|? ?]]; simpl in *; [lia|lia|done].
Qed.

(** ** Inverting a call that returned *)

Ltac inv_Ok :=
  repeat match goal with
  | H : Raise _ = Ok _ |- _ => discriminate H
  | H : Ok _ = Ok _ |- _ => injection H as H
  | H : _ ≫= _ = Ok _ |- _ => apply bind_Ok in H as (? & ? & H)
  | H : _ <$> _ = Ok _ |- _ => apply fmap_Ok in H as (? & H & ?)
  | H : (let (_, _) := ?x in _) = Ok _ |- _ => destruct x
  | H : (if ?b then _ else _) = Ok _ |- _ => destruct b eqn:?
  | H : match ?x with _ => _ end = Ok _ |- _ => destruct x eqn:?
  end; simplify_eq.

(** ** The devices the gradients are applied on *)

Section apply_devices.
Context `{TensorFlow} `{!AllReduce} `{!VariableMgrUtil}.

Lemma local_replicated_apply_devices self device_grads devs state self' :
  VariableMgrLocalReplicated.preprocess_device_grads self device_grads
  = Ok (devs, state, self') →
  devs = devices (VariableMgr.benchmark_cnn
                    (VariableMgrLocalReplicated.base self)).
Proof.
  unfold VariableMgrLocalReplicated.preprocess_device_grads.
  intros Hpre. by inv_Ok.
Qed.

Lemma distributed_all_reduce_apply_devices self device_grads devs state :
  VariableMgrDistributedAllReduce.preprocess_device_grads self device_grads
  = Ok (devs, state) →
  length devs = length device_grads.
Proof.
  unfold VariableMgrDistributedAllReduce.preprocess_device_grads.
  intros Hpre. inv_Ok. by eapply mapM_Ok_length.
Qed.
End apply_devices.

(** C2: whenever [preprocess_device_grads] returns, the list of devices to
    apply the gradients on has one entry for the managers that update the
    variables on the parameter server, and one entry per replica for the
    managers that update every replica's own copy. *)
Theorem apply_devices_length `{TensorFlow} `{!AllReduce} `{!VariableMgrUtil}
    (mgr : variable_mgr) (device_grads : DeviceGrads)
    (apply_devices : list Device) (gradient_state : DeviceGrads) :
  length (devices (benchmark_cnn mgr)) = length device_grads →
  preprocess_device_grads mgr device_grads = Ok (apply_devices, gradient_state) →
  length apply_devices
  = if applies_on_parameter_server mgr then 1%nat else length device_grads.
Proof.
  intros Hreplicas Hpre. destruct mgr as [self|self|self|self|self|self|self|self];
    simpl in *; try (by inv_Ok).
  - apply fmap_Ok in Hpre as ([[devs state] self'] & Hpre & ?). simplify_eq/=.
    by rewrite (local_replicated_apply_devices _ _ _ _ _ Hpre).
  - by eapply distributed_all_reduce_apply_devices.
Qed.

(** ** The Inf/NaN check of the independent manager *)

Lemma negb_forallb {A} (f : A → bool) (l : list A) :
  negb (forallb f l) = existsb (λ x, negb (f x)) l.
Proof. induction l as [|x l IH]; [done|]. simpl. by rewrite negb_andb, IH. Qed.

Lemma forallb_id_fmap {A} (f : A → bool) (l : list A) :
  forallb id (f <$> l) = forallb f l.
Proof.
  induction l as [|x l IH]; [done|]. rewrite fmap_cons.
  cbn [forallb]. by rewrite IH.
Qed.

Lemma has_inf_nan_true `{TensorFlow} (g : Tensor Elem) :
  has_inf_nan g = true ↔ ∃ x, x ∈ values g ∧ is_finite x = false.
Proof.
  unfold has_inf_nan. rewrite negb_forallb, existsb_exists.
  setoid_rewrite negb_true_iff. by setoid_rewrite list_elem_of_In.
Qed.

(** C6: the independent manager computes the Inf/NaN flag only when
    automatic loss scaling is enabled and [device_num] is 0, from the
    gradients of that tower alone: after such a call the field
    [grad_has_inf_nan] holds the flag and the other fields are as before,
    and the flag is the disjunction over the gradients of tower 0 of
    holding a non-finite element; any other call leaves the manager as it
    was.  The flag is advisory: what [get_gradients_to_apply] returns, or
    whether it raises, does not depend on it, nor do
    [preprocess_device_grads] and [get_devices];
    [append_apply_gradients_ops] hands the flag to
    [append_gradients_with_loss_scale] without reading it, together with
    an apply operation that is the same for every flag and never raises.
    The other operations of the manager take no manager state. *)
Theorem independent_inf_nan_check `{TensorFlow} `{!VariableMgrUtil}
    (self : VariableMgrIndependent.t) (device_num : Z)
    (gradient_state : DeviceGrads) :
  let cnn := VariableMgr.benchmark_cnn self in
  let outcome :=
    VariableMgrIndependent.get_gradients_to_apply self device_num gradient_state in
  fst <$> outcome = py_index gradient_state device_num
  ∧ (∀ tower_grad self',
       outcome = Ok (tower_grad, self') →
       enable_auto_loss_scale cnn = false ∨ device_num ≠ 0 →
       self' = self)
  ∧ (∀ tower_grad self',
       outcome = Ok (tower_grad, self') →
       enable_auto_loss_scale cnn = true → device_num = 0 →
       gradient_state !! 0%nat = Some tower_grad
       ∧ ∃ flag : bool,
           self' = VariableMgr.set_grad_has_inf_nan self (Some flag)
           ∧ VariableMgr.grad_has_inf_nan self' = Some flag
           ∧ VariableMgr.benchmark_cnn self' = cnn
           ∧ VariableMgr.staging_delta_ops self'
             = VariableMgr.staging_delta_ops self
           ∧ flag = existsb (λ gv : GradAndVar, has_inf_nan gv.1) tower_grad
           ∧ (flag = true
              ↔ ∃ (gv : GradAndVar) x,
                  gv ∈ tower_grad ∧ x ∈ values gv.1 ∧ is_finite x = false))
  ∧ (∀ flag' : option bool,
       let other :=
         VariableMgr.mk cnn (VariableMgr.staging_delta_ops self) flag' in
       fst <$> VariableMgrIndependent.get_gradients_to_apply
                 other device_num gradient_state
       = fst <$> outcome
       ∧ VariableMgrIndependent.preprocess_device_grads other gradient_state
         = VariableMgrIndependent.preprocess_device_grads self gradient_state
       ∧ VariableMgrIndependent.get_devices other
         = VariableMgrIndependent.get_devices self
       ∧ ∀ grads training_ops loss_scale_params,
           VariableMgr.append_apply_gradients_ops
             other grads training_ops loss_scale_params
           = append_gradients_with_loss_scale
               training_ops (λ _, Ok [ApplyGradients grads])
               loss_scale_params flag').
Proof.
  intros cnn outcome. subst outcome.
  assert (∀ other : VariableMgrIndependent.t,
            fst <$> VariableMgrIndependent.get_gradients_to_apply
                      other device_num gradient_state
            = py_index gradient_state device_num) as Hlist.
  { intros other. unfold VariableMgrIndependent.get_gradients_to_apply.
    destruct (py_index gradient_state device_num); [|done].
    cbn [mbind result_bind]. by destruct (_ && _). }
  split; [apply Hlist|]. split; [|split].
  - unfold VariableMgrIndependent.get_gradients_to_apply. fold cnn.
    intros tower_grad self' Hget Hoff. inv_Ok; [|done].
    match goal with Hb : _ && _ = true |- _ =>
      apply andb_true_iff in Hb as [Hen Hzero] end.
    apply Z.eqb_eq in Hzero. destruct Hoff; congruence.
  - unfold VariableMgrIndependent.get_gradients_to_apply. fold cnn.
    intros tower_grad self' Hget Hen ->. rewrite Hen in Hget.
    apply bind_Ok in Hget as (tower & Hidx & Hget). simpl in Hget.
    injection Hget as -> <-. split.
    + unfold py_index in Hidx. destruct gradient_state; simpl in *; [done|].
      by simplify_eq.
    + eexists. split; [done|]. split; [done|]. split; [done|].
      split; [done|].
      rewrite forallb_id_fmap, negb_forallb. split; [done|].
      rewrite existsb_exists. split.
      * intros (gv & Hin%list_elem_of_In & Hgv).
        apply (has_inf_nan_true gv.1) in Hgv as (x & ? & ?). eauto.
      * intros (gv & x & Hin%list_elem_of_In & ? & ?). exists gv.
        split; [done|]. apply (has_inf_nan_true gv.1). eauto.
  - intros flag' other. split; [by rewrite !Hlist|]. done.
Qed.

(** ** Aggregation by copy *)

Lemma omap_cons_Some {A B} (f : A → option B) x y l :
  f x = Some y → omap f (x :: l) = y :: omap f l.
Proof. intros Hy. cbn [omap list_omap]. by rewrite Hy. Qed.

Lemma omap_fmap_seq_lookup {A B} (g : nat → A) (f : A → option B) n len j :
  (∀ i, (i < len)%nat → is_Some (f (g (n + i)%nat))) → (j < len)%nat →
  omap f (g <$> seq n len) !! j = f (g (n + j)%nat).
Proof.
  revert n j. induction len as [|len IH]; intros n j Hsome Hj; [lia|].
  destruct (Hsome 0%nat ltac:(lia)) as [y Hy]. rewrite Nat.add_0_r in Hy.
  cbn [seq]. rewrite fmap_cons, (omap_cons_Some _ _ y) by done.
  destruct j as [|j].
  - by rewrite Nat.add_0_r, Hy.
  - cbn [lookup list_lookup]. 
    rewrite IH; [by rewrite Nat.add_succ_r| |lia].
    intros i Hi. rewrite Nat.add_succ_l, <-Nat.add_succ_r. apply Hsome. lia.
Qed.

Lemma omap_fmap_seq_length {A B} (g : nat → A) (f : A → option B) n len :
  (∀ i, (i < len)%nat → is_Some (f (g (n + i)%nat))) →
  length (omap f (g <$> seq n len)) = len.
Proof.
  revert n. induction len as [|len IH]; intros n Hsome; [done|].
  destruct (Hsome 0%nat ltac:(lia)) as [y Hy]. rewrite Nat.add_0_r in Hy.
  cbn [seq]. rewrite fmap_cons, (omap_cons_Some _ _ y) by done.
  cbn [length]. f_equal. apply IH. intros i Hi.
  rewrite Nat.add_succ_l, <-Nat.add_succ_r. apply Hsome. lia.
Qed.

Section columns.
Context {A : Type}.
Implicit Types (rows : list (list A)).

Lemma columns_rectangular row rows len :
  Forall (λ r, length r = len) (row :: rows) →
  columns (row :: rows)
  = (λ j, omap (λ r, r !! j) (row :: rows)) <$> seq 0 len.
Proof.
  intros Hlen. unfold columns. do 2 f_equal.
  apply Forall_cons in Hlen as [Hrow Hrows]. rewrite Hrow.
  induction Hrows as [|r rows Hr _ IH]; [done|].
  rewrite fmap_cons. cbn [foldr]. rewrite IH, Hr. apply Nat.min_id.
Qed.

(** In a matrix whose rows reach position [j], the column at [j] has one
    entry per row. *)
Lemma column_lookup rows len j i r x :
  Forall (λ r, length r = len) rows →
  rows !! i = Some r → r !! j = Some x →
  omap (λ r, r !! j) rows !! i = Some x.
Proof.
  intros Hlen Hi Hx.
  pose proof (lookup_lt_Some _ _ _ Hx) as Hj.
  pose proof (Forall_lookup_1 _ _ _ _ Hlen Hi) as Hr. simpl in Hr.
  revert i Hi.
  induction Hlen as [|r' rows Hr' Hrows IH]; intros i Hi; [done|].
  destruct (lookup_lt_is_Some_2 r' j ltac:(lia)) as [x' Hx'].
  cbn [omap list_omap]. rewrite Hx'.
  destruct i as [|i]; simpl in *; [congruence|]. by apply IH.
Qed.
End columns.

Section aggregate_lemmas.
Context `{TensorFlow}.
Implicit Types (device_grads : DeviceGrads).

Lemma gradients_at_column device_grads j :
  fst <$> omap (λ r : list GradAndVar, r !! j) device_grads
  = gradients_at device_grads j.
Proof.
  unfold gradients_at.
  induction device_grads as [|tower device_grads IH]; [done|].
  cbn [omap list_omap]. destruct (tower !! j); simpl; [|done].
  by f_equal.
Qed.

(** In an aligned matrix the aggregate has one entry per position: the
    sum (or mean) of the column, with the first tower's variable. *)
Lemma aggregate_lookup cnn device_grads use_mean check_inf_nan len
    tower0 j (gv0 : GradAndVar) :
  Forall (λ tower, length tower = len) device_grads →
  device_grads !! 0%nat = Some tower0 → tower0 !! j = Some gv0 →
  (aggregate_gradients_using_copy_with_device_selection
     cnn device_grads use_mean check_inf_nan).1 !! j
  = Some (let grad := add_n (gradients_at device_grads j) in
          if use_mean
          then multiply_reciprocal grad (length (gradients_at device_grads j))
          else grad, gv0.2).
Proof.
  intros Hlen Htower0 Hgv0.
  destruct device_grads as [|tower device_grads]; [done|].
  injection Htower0 as ->.
  assert (length tower0 = len) as Hlen0 by (by apply Forall_cons in Hlen as []).
  pose proof (lookup_lt_Some _ _ _ Hgv0) as Hj.
  unfold aggregate_gradients_using_copy_with_device_selection. cbn [fst].
  rewrite (columns_rectangular _ _ len) by done.
  assert (∀ i, (i < len)%nat →
    ∃ gv, tower0 !! i = Some gv ∧
    aggregate_single_gradient_using_copy
      (omap (λ r : list GradAndVar, r !! i) (tower0 :: device_grads)) use_mean
    = Some (let grad := add_n (gradients_at (tower0 :: device_grads) i) in
            if use_mean
            then multiply_reciprocal grad
                   (length (gradients_at (tower0 :: device_grads) i))
            else grad, gv.2)) as Hagg.
  { intros i Hi.
    destruct (lookup_lt_is_Some_2 tower0 i ltac:(lia)) as [gv Hgv].
    exists gv. split; [done|].
    unfold aggregate_single_gradient_using_copy.
    rewrite gradients_at_column.
    cbn [omap list_omap]. rewrite Hgv. cbn [mbind option_bind].
    by destruct gv. }
  rewrite omap_fmap_seq_lookup; [|intros i Hi|lia]; cbn beta.
  - change (0 + j)%nat with j.
    destruct (Hagg j ltac:(lia)) as (gv & Hgv & ->).
    assert (Some gv = Some gv0) as [= ->]; [|done].
    etrans; [symmetry; exact Hgv|exact Hgv0].
  - change (0 + i)%nat with i.
    destruct (Hagg i Hi) as (gv & _ & ->). by eexists.
Qed.

Lemma aggregate_length cnn device_grads use_mean check_inf_nan len tower0 :
  Forall (λ tower, length tower = len) device_grads →
  device_grads !! 0%nat = Some tower0 →
  length (aggregate_gradients_using_copy_with_device_selection
            cnn device_grads use_mean check_inf_nan).1 = len.
Proof.
  intros Hlen Htower0.
  destruct device_grads as [|tower device_grads]; [done|].
  injection Htower0 as ->.
  assert (length tower0 = len) as Hlen0 by (by apply Forall_cons in Hlen as []).
  unfold aggregate_gradients_using_copy_with_device_selection. cbn [fst].
  rewrite (columns_rectangular _ _ len) by done.
  apply omap_fmap_seq_length. intros i Hi. change (0 + i)%nat with i.
  destruct (lookup_lt_is_Some_2 tower0 i ltac:(lia)) as [[g v] Hgv].
  unfold aggregate_single_gradient_using_copy.
  cbn [omap list_omap]. rewrite Hgv. cbn [mbind option_bind]. by eexists.
Qed.
End aggregate_lemmas.

Lemma fst_zip_with_own_variable {G V} (arr agg : list (G * V)) :
  length arr = length agg →
  fst <$> zip_with (λ av ag : G * V, (ag.1, av.2)) arr agg = fst <$> agg.
Proof.
  revert agg. induction arr as [|av arr IH]; intros [|ag agg] Hlen;
    simplify_eq/=; [done|]. f_equal. by apply IH.
Qed.

(** C1: in local replicated mode without an all-reduce spec and without
    hierarchical copy, for a device-gradient matrix of [R] aligned rows,
    [preprocess_device_grads] returns one list per replica;
    [get_gradients_to_apply i] returns the [i]-th of them; its entry at
    every position is the sum ([add_n], no mean) of all [R] replicas'
    gradients at that position, paired with replica [i]'s own variable; and
    the gradients are the same in all the returned lists. *)
Theorem local_replicated_sum_everywhere
    `{TensorFlow} `{!AllReduce} `{!VariableMgrUtil}
    (self : VariableMgrLocalReplicated.t) (device_grads : DeviceGrads)
    (len : nat) :
  let cnn := VariableMgr.benchmark_cnn (VariableMgrLocalReplicated.base self) in
  VariableMgrLocalReplicated._all_reduce_spec self = None →
  hierarchical_copy (params cnn) = false →
  Forall (λ tower, length tower = len) device_grads →
  ∃ aggregated self',
    VariableMgrLocalReplicated.preprocess_device_grads self device_grads
    = Ok (devices cnn, aggregated, self')
    ∧ length aggregated = length device_grads
    ∧ (∀ i tower,
         device_grads !! i = Some tower →
         ∃ to_apply,
           VariableMgrLocalReplicated.get_gradients_to_apply
             self' (Z.of_nat i) aggregated = Ok to_apply
           ∧ length to_apply = len
           ∧ ∀ j (gv : GradAndVar),
               tower !! j = Some gv →
               to_apply !! j
               = Some (add_n (gradients_at device_grads j), gv.2))
    ∧ (∀ to_apply to_apply',
         to_apply ∈ aggregated → to_apply' ∈ aggregated →
         fst <$> to_apply = fst <$> to_apply').
Proof.
  intros cnn Hspec Hhier Hlen.
  unfold VariableMgrLocalReplicated.preprocess_device_grads.
  fold cnn. rewrite Hspec, Hhier. cbn [negb].
  destruct (aggregate_gradients_using_copy_with_device_selection
              cnn device_grads false (enable_auto_loss_scale cnn))
    as [agg_grads flag] eqn:Hagg.
  assert (∀ tower0, device_grads !! 0%nat = Some tower0 →
            length agg_grads = len) as Hagg_len.
  { intros tower0 Htower0.
    pose proof (aggregate_length cnn device_grads false
                  (enable_auto_loss_scale cnn) len tower0 Hlen Htower0) as Hl.
    by rewrite Hagg in Hl. }
  assert (∀ i tower, device_grads !! i = Some tower →
            length tower = len ∧ length agg_grads = len) as Hrow.
  { intros i tower Htower. split.
    - by apply (Forall_lookup_1 _ _ _ _ Hlen Htower).
    - destruct device_grads as [|tower0 ?]; [done|]. by eapply Hagg_len. }
  eexists _, _. split; [done|]. split; [by rewrite length_fmap|]. split.
  - intros i tower Htower. destruct (Hrow i tower Htower) as [Ht Ha].
    eexists. split; [|split].
    + apply py_index_Some. by rewrite list_lookup_fmap, Htower.
    + rewrite length_zip_with. lia.
    + intros j gv Hgv. rewrite lookup_zip_with, Hgv. cbn [mbind option_bind].
      destruct device_grads as [|tower0 rest] eqn:Hdg; [done|].
      pose proof (lookup_lt_Some _ _ _ Hgv) as Hj.
      assert (length tower0 = len) as Hlen0
        by (by apply Forall_cons in Hlen as []).
      destruct (lookup_lt_is_Some_2 tower0 j ltac:(lia)) as [gv0 Hgv0].
      pose proof (aggregate_lookup cnn (tower0 :: rest) false
                    (enable_auto_loss_scale cnn) len tower0 j gv0
                    Hlen eq_refl Hgv0) as Hl.
      rewrite Hagg in Hl. cbn [fst] in Hl. by rewrite Hl.
  - intros to_apply to_apply'
      (arr & -> & Harr)%list_elem_of_fmap (arr' & -> & Harr')%list_elem_of_fmap.
    apply list_elem_of_lookup in Harr as [i Harr].
    apply list_elem_of_lookup in Harr' as [i' Harr'].
    destruct (Hrow i arr Harr) as [? ?], (Hrow i' arr' Harr') as [? _].
    rewrite !fst_zip_with_own_variable; [done|lia|lia].
Qed.

(** ** The ranges of an all-reduce spec *)

Section ranges.
Context `{TensorFlow} `{!AllReduce} `{!VariableMgrUtil}.
Implicit Types (self : VariableMgrDistributedAllReduce.t).

(** The loop threads the remaining gradients exactly as [take_ranges]
    does. *)
Lemma reduce_ranges_take self spec aggregated remaining aggregated' remaining' :
  VariableMgrDistributedAllReduce.reduce_ranges
    self spec (aggregated, remaining) = Ok (aggregated', remaining') →
  ∃ parts, take_ranges spec remaining = Ok (parts, remaining')
           ∧ length parts = length spec.
Proof.
  revert aggregated remaining.
  induction spec as [|spec_tuple spec IH]; intros aggregated remaining Hloop.
  - injection Hloop as <- <-. by exists [].
  - cbn [VariableMgrDistributedAllReduce.reduce_ranges] in Hloop.
    apply bind_Ok in Hloop as ([aggregated1 remaining1] & Hstep & Hloop).
    apply IH in Hloop as (parts & Hparts & Hlen).
    unfold VariableMgrDistributedAllReduce.reduce_range in Hstep.
    apply bind_Ok in Hstep as ([this_grads remaining2] & Htake & Hstep).
    assert (remaining2 = remaining1) as -> by (by inv_Ok).
    exists (this_grads :: parts). cbn [take_ranges length].
    rewrite Htake. cbn [mbind result_bind]. rewrite Hparts.
    split; [done|]. by rewrite Hlen.
Qed.

(** If every split hands out exactly the gradients it was given, the
    ranges and the final remainder together hold every gradient once. *)
Lemma take_ranges_partition spec remaining parts final :
  (∀ threshold grads this rest,
     split_grads_by_size threshold grads = Ok (this, rest) →
     concat this ++ concat rest ≡ₚ concat grads) →
  take_ranges spec remaining = Ok (parts, final) →
  concat (concat parts) ++ concat final ≡ₚ concat remaining.
Proof.
  intros Hsplit. revert remaining parts.
  induction spec as [|spec_tuple spec IH]; intros remaining parts Htake.
  - by injection Htake as <- <-.
  - cbn [take_ranges] in Htake.
    apply bind_Ok in Htake as ([this_grads remaining1] & Hthis & Htake).
    apply bind_Ok in Htake as ([parts1 final1] & Hrest & Htake).
    injection Htake as <- <-. apply IH in Hrest.
    cbn [concat]. rewrite concat_app, <-app_assoc, Hrest.
    unfold VariableMgrDistributedAllReduce.take_range in Hthis.
    destruct (limit spec_tuple <? 0).
    + injection Hthis as <- <-. by rewrite app_nil_r.
    + by eapply Hsplit.
Qed.
End ranges.

(** C3: the distributed all-reduce manager goes through the ranges of the
    parsed spec in order, each taking its gradients from what the earlier
    ranges left: a range with a negative limit takes all that remains, a
    range with a limit of 0 or more takes what [split_grads_by_size] hands
    out for that limit.  Provided each split hands out exactly the gradients
    it was given, the ranges and the final remainder hold every gradient
    once; a non-empty final remainder makes the call raise
    [AssertionError], so that whenever the call returns the remainder is
    empty and every gradient belongs to exactly one range. *)
Theorem all_reduce_ranges_consume_everything
    `{TensorFlow} `{!AllReduce} `{!VariableMgrUtil}
    (self : VariableMgrDistributedAllReduce.t) (device_grads : DeviceGrads) :
  let spec := VariableMgrDistributedAllReduce._all_reduce_spec self in
  (∀ threshold grads this rest,
     split_grads_by_size threshold grads = Ok (this, rest) →
     concat this ++ concat rest ≡ₚ concat grads) →
  (∀ spec_tuple remaining,
     limit spec_tuple < 0 →
     VariableMgrDistributedAllReduce.take_range spec_tuple remaining
     = Ok (remaining, []))
  ∧ (∀ spec_tuple remaining,
       0 ≤ limit spec_tuple →
       VariableMgrDistributedAllReduce.take_range spec_tuple remaining
       = split_grads_by_size (limit spec_tuple) remaining)
  ∧ (∀ aggregated remaining,
       VariableMgrDistributedAllReduce.reduce_ranges
         self spec ([], device_grads) = Ok (aggregated, remaining) →
       ∃ parts,
         take_ranges spec device_grads = Ok (parts, remaining)
         ∧ length parts = length spec
         ∧ concat (concat parts) ++ concat remaining ≡ₚ concat device_grads
         ∧ (remaining ≠ [] →
            VariableMgrDistributedAllReduce.preprocess_device_grads
              self device_grads = Raise AssertionError))
  ∧ (∀ apply_devices aggregated,
       VariableMgrDistributedAllReduce.preprocess_device_grads
         self device_grads = Ok (apply_devices, aggregated) →
       ∃ parts,
         take_ranges spec device_grads = Ok (parts, [])
         ∧ concat (concat parts) ≡ₚ concat device_grads).
Proof.
  intros spec Hsplit. split; [|split; [|split]].
  - intros spec_tuple remaining Hlimit.
    unfold VariableMgrDistributedAllReduce.take_range.
    by rewrite (proj2 (Z.ltb_lt _ _) Hlimit).
  - intros spec_tuple remaining Hlimit.
    unfold VariableMgrDistributedAllReduce.take_range.
    by rewrite (proj2 (Z.ltb_ge _ _) Hlimit).
  - intros aggregated remaining Hloop.
    destruct (reduce_ranges_take _ _ _ _ _ _ Hloop) as (parts & Htake & Hlen).
    exists parts. split; [done|]. split; [done|]. split.
    + by eapply take_ranges_partition.
    + intros Hrem.
      unfold VariableMgrDistributedAllReduce.preprocess_device_grads.
      fold spec. rewrite Hloop. cbn [mbind result_bind].
      by destruct remaining.
  - intros apply_devices aggregated Hpre.
    unfold VariableMgrDistributedAllReduce.preprocess_device_grads in Hpre.
    fold spec in Hpre.
    apply bind_Ok in Hpre as ([aggregated1 remaining] & Hloop & Hpre).
    apply bind_Ok in Hpre as ([] & Hassert & _).
    destruct remaining; [|done].
    destruct (reduce_ranges_take _ _ _ _ _ _ Hloop) as (parts & Htake & _).
    exists parts. split; [done|].
    pose proof (take_ranges_partition _ _ _ _ Hsplit Htake) as Hperm.
    by rewrite app_nil_r in Hperm.
Qed.

(** ** Apply, barrier, broadcast *)

Section broadcast.
Context `{TensorFlow} `{!VariableMgrUtil}.
Implicit Types (self : VariableMgrDistributedReplicated.t)
  (device_grads : DeviceGrads).

Lemma replicate_variable_Ok self device_grads i gv :
  let D := length (devices (VariableMgr.benchmark_cnn self)) in
  (D ≤ length device_grads)%nat →
  Forall (λ tower, (i < length tower)%nat) device_grads →
  ∃ ops,
    VariableMgrDistributedReplicated.replicate_variable
      self device_grads i gv = Ok ops
    ∧ length ops = D
    ∧ ∀ my_d tower (tower_gv : GradAndVar),
        (my_d < D)%nat →
        device_grads !! my_d = Some tower → tower !! i = Some tower_gv →
        ops !! my_d = Some (broadcast_assign self i gv tower_gv.2).
Proof.
  intros D HD Hreach.
  unfold VariableMgrDistributedReplicated.replicate_variable. fold D.
  set (body := λ my_d : nat, _).
  assert (∀ my_d tower (tower_gv : GradAndVar),
            device_grads !! my_d = Some tower → tower !! i = Some tower_gv →
            body my_d = Ok (broadcast_assign self i gv tower_gv.2)) as Hbody.
  { intros my_d tower tower_gv Htower Hgv. subst body. cbn beta.
    rewrite (py_index_Some _ _ _ Htower). cbn [mbind result_bind].
    by rewrite (py_index_Some _ _ _ Hgv). }
  destruct (mapM_Ok_total body (seq 0 D)) as [ops Hops].
  { apply Forall_forall. intros my_d [_ Hmy_d]%elem_of_seq.
    destruct (lookup_lt_is_Some_2 device_grads my_d ltac:(lia))
      as [tower Htower].
    pose proof (Forall_lookup_1 _ _ _ _ Hreach Htower) as Hi.
    destruct (lookup_lt_is_Some_2 tower i Hi) as [tower_gv Hgv].
    eexists. by eapply Hbody. }
  exists ops. split; [done|].
  pose proof (mapM_Ok_length _ _ _ Hops) as Hlen.
  rewrite length_seq in Hlen. split; [done|].
  intros my_d tower tower_gv Hmy_d Htower Hgv.
  apply mapM_Ok_Forall2 in Hops.
  destruct (Forall2_lookup_l _ _ _ my_d my_d Hops) as (op & Hop & Hbody_op).
  { by apply lookup_seq. }
  rewrite (Hbody _ _ _ Htower Hgv) in Hbody_op. by injection Hbody_op as <-.
Qed.

Lemma apply_loop_Ok self device_grads start grads :
  let D := length (devices (VariableMgr.benchmark_cnn self)) in
  (D ≤ length device_grads)%nat →
  Forall (λ tower, (start + length grads ≤ length tower)%nat) device_grads →
  ∃ ops,
    VariableMgrDistributedReplicated.apply_loop
      self device_grads start grads = Ok ops
    ∧ length ops = (length grads * D)%nat
    ∧ ∀ k gv my_d tower (tower_gv : GradAndVar),
        grads !! k = Some gv → (my_d < D)%nat →
        device_grads !! my_d = Some tower →
        tower !! (start + k)%nat = Some tower_gv →
        ops !! (k * D + my_d)%nat
        = Some (broadcast_assign self (start + k) gv tower_gv.2).
Proof.
  intros D HD. revert start.
  induction grads as [|gv grads IH]; intros start Hreach.
  - exists []. by repeat split.
  - cbn [length] in Hreach.
    destruct (replicate_variable_Ok self device_grads start gv HD)
      as (ops & Hops & Hlen & Hlookup).
    { eapply Forall_impl; [exact Hreach|]. intros. simpl in *. lia. }
    destruct (IH (S start)) as (ops' & Hops' & Hlen' & Hlookup').
    { eapply Forall_impl; [exact Hreach|]. intros. simpl in *. lia. }
    exists (ops ++ ops').
    cbn [VariableMgrDistributedReplicated.apply_loop].
    rewrite Hops. cbn [mbind result_bind]. rewrite Hops'.
    split; [done|]. fold D in Hlen, Hlen', Hlookup, Hlookup'.
    split; [rewrite length_app; cbn [length]; lia|].
    intros [|k] gv' my_d tower tower_gv Hgv' Hmy_d Htower Htgv.
    + injection Hgv' as <-. rewrite Nat.add_0_r in *.
      rewrite lookup_app_l by (cbn; lia). cbn. by eapply Hlookup.
    + cbn [lookup list_lookup] in Hgv'.
      rewrite lookup_app_r by (rewrite Hlen; cbn; lia).
      replace (S k * D + my_d - length ops)%nat with (k * D + my_d)%nat
        by (rewrite Hlen; cbn; lia).
      replace (start + S k)%nat with (S start + k)%nat in * by lia.
      by eapply Hlookup'.
Qed.
End broadcast.

(** C5: in distributed replicated mode the operations that write the
    updated shadow value of parameter [i] back to the replicas' local copies
    are created after a barrier of their own, named by [i], whose only
    input is the apply-gradient operation of parameter [i]; each such
    assignment, and the read it assigns, has that barrier as control input,
    so it runs after the barrier and after the apply operation.  Barriers
    of different parameters have different names, and the barrier of
    parameter [i] waits for nothing but the apply operation of [i]. *)
Theorem broadcast_after_barrier `{TensorFlow} `{!VariableMgrUtil}
    (self : VariableMgrDistributedReplicated.t)
    (device_grads : DeviceGrads) (grads : list GradAndVar) :
  let cnn := VariableMgr.benchmark_cnn self in
  let D := length (devices cnn) in
  (D ≤ length device_grads)%nat →
  Forall (λ tower, (length grads ≤ length tower)%nat) device_grads →
  ∃ ops,
    VariableMgrDistributedReplicated.get_apply_gradients_ops_func
      self device_grads grads = Ok ops
    ∧ length ops = (length grads * D)%nat
    ∧ (∀ i gv my_d,
         grads !! i = Some gv → (my_d < D)%nat →
         let apply_gradient_op := ApplyGradients [gv] in
         let barrier :=
           SyncBarrier ("replicate_variable_" +:+ pretty i) [apply_gradient_op] in
         let updated_value :=
           ReadValue gv.2 [barrier] (Some (cpu_device cnn)) in
         ∃ tower (tower_gv : GradAndVar) op,
           device_grads !! my_d = Some tower
           ∧ tower !! i = Some tower_gv
           ∧ ops !! (i * D + my_d)%nat = Some op
           ∧ op = Assign tower_gv.2 updated_value [barrier]
                    (Some (cpu_device cnn))
           ∧ op_inputs barrier = [apply_gradient_op]
           ∧ (∀ op', runs_after barrier op' → op' = apply_gradient_op)
           ∧ runs_after updated_value barrier
           ∧ runs_after op barrier
           ∧ runs_after op apply_gradient_op)
    ∧ (∀ i i' : nat,
         "replicate_variable_" +:+ pretty i = "replicate_variable_" +:+ pretty i' →
         i = i').
Proof.
  intros cnn D HD Hreach.
  destruct (apply_loop_Ok self device_grads 0 grads HD)
    as (ops & Hops & Hlen & Hlookup); [done|].
  exists ops. split; [done|]. split; [done|]. split.
  - intros i gv my_d Hgv Hmy_d apply_gradient_op barrier updated_value.
    destruct (lookup_lt_is_Some_2 device_grads my_d ltac:(unfold D in *; lia))
      as [tower Htower].
    pose proof (Forall_lookup_1 _ _ _ _ Hreach Htower) as Hi. cbn beta in Hi.
    pose proof (lookup_lt_Some _ _ _ Hgv) as Hi'.
    destruct (lookup_lt_is_Some_2 tower i ltac:(lia)) as [tower_gv Htgv].
    exists tower, tower_gv, (broadcast_assign self i gv tower_gv.2).
    split; [done|]. split; [done|]. split; [by eapply (Hlookup i)|].
    split; [done|]. split; [done|]. split.
    { intros op' Hrun.
      inversion Hrun as [? ? Hin|? mid ? Hin Hrest]; subst; cbn in Hin;
        apply list_elem_of_singleton in Hin; subst; [done|].
      inversion Hrest as [? ? Hin'|? ? ? Hin' _]; subst; cbn in Hin';
        by apply elem_of_nil in Hin'. }
    assert (runs_after (broadcast_assign self i gv tower_gv.2) barrier).
    { apply runs_after_input. cbn. set_solver. }
    split; [apply runs_after_input; cbn; set_solver|]. split; [done|].
    eapply runs_after_trans with (op' := barrier).
    + cbn. set_solver.
    + apply runs_after_input. cbn. set_solver.
  - intros i i' Hname. apply (inj (String.append _)) in Hname.
    by apply (inj (@pretty nat _)) in Hname.
Qed.

(** ** Splitting a flat buffer and putting it together again *)

Lemma sum_list_cons (n : nat) (l : list nat) :
  sum_list (n :: l) = (n + sum_list l)%nat.
Proof. done. Qed.

Section chunks_lemmas.
Context {E : Type}.
Implicit Types (xs : list E) (sizes : list nat).




Lemma chunk_sizes sizes xs :
  sum_list sizes = length xs → length <$> chunks sizes xs = sizes.
Proof.
  revert xs. induction sizes as [|n sizes IH]; intros xs Hsum; [done|].
  rewrite sum_list_cons in Hsum.
  cbn [chunks]. rewrite fmap_cons, length_take, IH
    by (rewrite length_drop; lia).
  f_equal. lia.
Qed.
End chunks_lemmas.

Section split_sizes_lemmas.
Implicit Types (total num_splits : nat).




End split_sizes_lemmas.

(** ** Repacking the gradients of a tower *)

Section repacking.
Context `{TensorFlow} `{!AllReduce} `{!VariableMgrUtil}.
Implicit Types (tower : list GradAndVar) (dev : Device).








End repacking.

Section unpacking.
Context `{TensorFlow} `{!AllReduce} `{!VariableMgrUtil}.
Implicit Types (tower : list GradAndVar) (dev : Device)
  (summed : list (Tensor Elem * option TfVariable)).







End unpacking.


Section repack_all.
Context `{TensorFlow} `{!AllReduce} `{!VariableMgrUtil}.
Implicit Types (device_grads : DeviceGrads)
  (summed : list (list (Tensor Elem * option TfVariable))).


End repack_all.

Section unpack_exact.
Context `{TensorFlow} `{!AllReduce} `{!VariableMgrUtil}.
Implicit Types (device_grads : DeviceGrads)
  (summed : list (list (Tensor Elem * option TfVariable))).



End unpack_exact.


(** ** Calls with a device number that is out of range *)

Section out_of_range.
Context `{TensorFlow} `{!AllReduce} `{!VariableMgrUtil}.

(** Every manager but the distributed replicated one raises when
    [device_num] is at or beyond the number of devices it applies
    gradients on. *)
Lemma get_gradients_to_apply_out_of_range (mgr : variable_mgr)
    (device_num : Z) (gradient_state : DeviceGrads) :
  (∀ self, mgr ≠ DistributedReplicated self) →
  (if applies_on_parameter_server mgr then 1
   else Z.of_nat (length gradient_state)) ≤ device_num →
  ∃ e, get_gradients_to_apply mgr device_num gradient_state = Raise e.
Proof.
  intros Hmgr Hrange.
  destruct mgr as [self|self|self|self|self|self|self|self];
    cbn [applies_on_parameter_server] in Hrange; cbn [get_gradients_to_apply].
  - unfold VariableMgrIndependent.get_gradients_to_apply.
    rewrite py_index_ge by done. by eexists.
  - unfold VariableMgrLocalFetchFromPS.get_gradients_to_apply.
    rewrite (proj2 (Z.eqb_neq device_num 0)) by lia. by eexists.
  - unfold VariableMgrLocalFetchFromStagedPS.get_gradients_to_apply,
      VariableMgrLocalFetchFromPS.get_gradients_to_apply.
    rewrite (proj2 (Z.eqb_neq device_num 0)) by lia. by eexists.
  - unfold VariableMgrLocalReplicated.get_gradients_to_apply.
    rewrite py_index_ge by done. by eexists.
  - unfold VariableMgrDistributedAllReduce.get_gradients_to_apply.
    rewrite (proj2 (Z.leb_le _ _)) by done. by eexists.
  - unfold VariableMgrDistributedFetchFromPS.get_gradients_to_apply.
    rewrite (proj2 (Z.eqb_neq device_num 0)) by lia. by eexists.
  - unfold VariableMgrDistributedFetchFromStagedPS.get_gradients_to_apply,
      VariableMgrDistributedFetchFromPS.get_gradients_to_apply.
    rewrite (proj2 (Z.eqb_neq device_num 0)) by lia. by eexists.
  - by destruct (Hmgr self).
Qed.

(** The distributed replicated manager never looks at [device_num]. *)
Lemma distributed_replicated_ignores_device_num
    (self : VariableMgrDistributedReplicated.t) (device_num device_num' : Z)
    (gradient_state : DeviceGrads) :
  VariableMgrDistributedReplicated.get_gradients_to_apply
    self device_num gradient_state
  = VariableMgrDistributedReplicated.get_gradients_to_apply
      self device_num' gradient_state.
Proof. done. Qed.
End out_of_range.

(** ** The stand-in split *)

Lemma concat_filter_nonempty {A} (ls : list (list A)) :
  concat (filter (λ l, l ≠ []) ls) = concat ls.
Proof.
  induction ls as [|l ls IH]; [done|]. rewrite filter_cons.
  destruct (decide (l ≠ [])) as [|Hl]; cbn [concat]; [by rewrite IH|].
  apply dec_stable in Hl as ->. by rewrite IH.
Qed.

Lemma filter_both_Permutation {A} (f : A → bool) (l : list A) :
  filter (λ x, f x = true) l ++ filter (λ x, f x = false) l ≡ₚ l.
Proof.
  induction l as [|x l IH]; [done|]. rewrite !filter_cons.
  destruct (f x) eqn:Hx.
  - rewrite decide_True, decide_False by done. cbn. by rewrite IH.
  - rewrite decide_False, decide_True by done.
    rewrite <-Permutation_middle. cbn. by rewrite IH.
Qed.

Lemma sample_split_hands_out_all threshold
    (grads this rest : list (list (Tensor Sample.elem * TfVariable))) :
  @split_grads_by_size Sample.tensorflow Sample.allreduce threshold grads
  = Ok (this, rest) →
  concat this ++ concat rest ≡ₚ concat grads.
Proof.
  intros [= <- <-]. rewrite !concat_filter_nonempty.
  induction grads as [|dl grads IH]; [done|].
  rewrite !fmap_cons. cbn [concat].
  etrans; [|apply Permutation_app;
             [apply (filter_both_Permutation
                       (λ gv, bool_decide
                                (Z.of_nat (tf_size gv.1) ≤ threshold)) dl)
             |exact IH]].
  rewrite <-!app_assoc. f_equiv.
  rewrite !app_assoc. f_equiv. apply Permutation_app_comm.
Qed.

(** * Worked examples *)

Section examples.
#[local] Existing Instance Sample.tensorflow.
#[local] Existing Instance Sample.allreduce.
#[local] Existing Instance Sample.variable_mgr_util.

(** Two towers: every tower gets the same sums. *)
Lemma local_replicated_sum_everywhere_witness :
  ∃ aggregated self',
    VariableMgrLocalReplicated.preprocess_device_grads
      Sample.local_replicated Sample.device_grads2
    = Ok (["/gpu:0"; "/gpu:1"], aggregated, self')
    ∧ length aggregated = 2%nat
    ∧ ∀ to_apply to_apply',
        to_apply ∈ aggregated → to_apply' ∈ aggregated →
        fst <$> to_apply = fst <$> to_apply'.
Proof.
  destruct (local_replicated_sum_everywhere
              Sample.local_replicated Sample.device_grads2 2)
    as (aggregated & self' & Hpre & Hlen & _ & Hsame).
  - reflexivity.
  - reflexivity.
  - repeat constructor.
  - exists aggregated, self'. repeat split; assumption.
Defined.

(** Two replicas under the distributed all-reduce manager: two devices. *)
Lemma apply_devices_length_witness :
  ∃ apply_devices gradient_state,
    preprocess_device_grads
      (DistributedAllReduce Sample.distributed_all_reduce)
      Sample.device_grads2
    = Ok (apply_devices, gradient_state)
    ∧ length apply_devices = 2%nat.
Proof.
  eexists _, _. split; [vm_compute; reflexivity|].
  eapply (apply_devices_length
            (DistributedAllReduce Sample.distributed_all_reduce)
            Sample.device_grads2); [reflexivity|vm_compute; reflexivity].
Defined.

(** The small gradients go to the first range, the others to the second,
    and nothing remains. *)
Lemma all_reduce_ranges_consume_everything_witness :
  ∃ parts,
    take_ranges
      (VariableMgrDistributedAllReduce._all_reduce_spec
         Sample.distributed_all_reduce) Sample.device_grads2
    = Ok (parts, [])
    ∧ concat (concat parts) ≡ₚ concat Sample.device_grads2.
Proof.
  destruct (all_reduce_ranges_consume_everything
              Sample.distributed_all_reduce Sample.device_grads2
              sample_split_hands_out_all) as (_ & _ & _ & Hreturns).
  eapply Hreturns. vm_compute. reflexivity.
Defined.

(** Two parameters broadcast to two towers: four assignments. *)
Lemma broadcast_after_barrier_witness :
  ∃ ops,
    VariableMgrDistributedReplicated.get_apply_gradients_ops_func
      Sample.distributed_replicated Sample.device_grads2 Sample.shadow_grads
    = Ok ops
    ∧ length ops = 4%nat.
Proof.
  destruct (broadcast_after_barrier
              Sample.distributed_replicated Sample.device_grads2
              Sample.shadow_grads) as (ops & Hops & Hlen & _).
  - simpl. lia.
  - repeat constructor.
  - exists ops. split; assumption.
Defined.

(** Device 0 sets the flag from tower 0; the NaN of tower 1 is not seen. *)
Lemma independent_inf_nan_check_witness :
  ∃ tower_grad self',
    VariableMgrIndependent.get_gradients_to_apply
      Sample.independent 0 Sample.device_grads_nan = Ok (tower_grad, self')
    ∧ Sample.device_grads_nan !! 0%nat = Some tower_grad
    ∧ VariableMgr.grad_has_inf_nan self' = Some false.
Proof.
  assert (∃ tower_grad self',
            VariableMgrIndependent.get_gradients_to_apply
              Sample.independent 0 Sample.device_grads_nan
            = Ok (tower_grad, self')) as (tower_grad & self' & Hget)
    by (eexists _, _; vm_compute; reflexivity).
  destruct (independent_inf_nan_check
              Sample.independent 0 Sample.device_grads_nan)
    as (_ & _ & Hzero & _).
  destruct (Hzero tower_grad self' Hget eq_refl eq_refl)
    as (Htower & flag & _ & Hfield & _ & _ & Hflag & _).
  exists tower_grad, self'. split; [exact Hget|]. split; [exact Htower|].
  rewrite Hfield, Hflag. vm_compute in Htower. injection Htower as <-.
  vm_compute. reflexivity.
Defined.

(** A spec of two ranges is refused by the local replicated manager. *)
Lemma invalid_all_reduce_spec_raises_witness :
  VariableMgrLocalReplicated.__init__ Sample.cnn2 (Some "psgpu:nccl") 0 0
  = Raise (ValueError
      "replicated mode does not support hybrid all-reduce strategies").
Proof.
  eapply (proj2 (proj2 (invalid_all_reduce_spec_raises Sample.cnn2 "" 0 0 0))).
  - discriminate.
  - vm_compute. reflexivity.
  - simpl. lia.
Defined.

(** The copy of replica 1 is not saved. *)
Lemma savable_variables_local_replicated_witness :
  mkVariable "v1/w:0"
  ∉ VariableMgrLocalReplicated.savable_variables Sample.global_variables.
Proof.
  apply (proj2 (savable_variables_local_replicated
                  Sample.global_variables (mkVariable "v1/w:0")) 1).
  - lia.
  - vm_compute. reflexivity.
Defined.

(** C9 as stated fails: ["global_step:0"] is saved although it is not in
    the scope of replica 0. *)
Lemma savable_variables_keeps_unscoped :
  ¬ (∀ v, v ∈ Sample.global_variables →
          (v ∈ VariableMgrLocalReplicated.savable_variables
                 Sample.global_variables
           ↔ in_variable_scope 0 v)).
Proof.
  intros Hclaim.
  destruct (Hclaim (mkVariable "global_step:0")) as [Hscope _].
  - unfold Sample.global_variables. rewrite !elem_of_cons. auto.
  - assert (in_variable_scope 0 (mkVariable "global_step:0")) as Hin.
    { apply Hscope. unfold VariableMgrLocalReplicated.savable_variables.
      rewrite savable_loop_described. apply list_elem_of_filter.
      split; [right; vm_compute; reflexivity|].
      unfold Sample.global_variables. rewrite !elem_of_cons. auto. }
    vm_compute in Hin. discriminate Hin.
Qed.

(** C8 fails for the distributed replicated manager: it applies the
    gradients on one device, yet [get_gradients_to_apply] with
    [device_num = 1] returns the list it returns for [device_num = 0]
    instead of raising, where the distributed fetch-from-PS manager, with
    the same single device, fails its assertion. *)
Theorem distributed_replicated_accepts_device_num_1 :
  (fst <$> preprocess_device_grads
             (DistributedReplicated Sample.distributed_replicated)
             Sample.device_grads2) = Ok ["/cpu:0"]
  ∧ get_gradients_to_apply
      (DistributedReplicated Sample.distributed_replicated) 1
      Sample.device_grads2
    = Ok Sample.shadow_grads
  ∧ get_gradients_to_apply
      (DistributedReplicated Sample.distributed_replicated) 0
      Sample.device_grads2
    = Ok Sample.shadow_grads
  ∧ get_gradients_to_apply
      (DistributedFetchFromPS Sample.distributed_fetch_from_ps) 1
      Sample.device_grads2
    = Raise AssertionError.
Proof. repeat split; vm_compute; reflexivity. Qed.
End examples.

Section repacking_example.
#[local] Existing Instance Sample.tensorflow.
#[local] Existing Instance Sample.allreduce.
#[local] Existing Instance Sample.variable_mgr_util_sum.

End repacking_example.


(** * Further properties of the managers *)

(** ** Strings as lists of characters *)

Abbreviation chars := list_ascii_of_string.

Lemma chars_app s t : chars (s +:+ t) = chars s ++ chars t.
Proof. induction s as [|c s IH]; [done|]. simpl. by f_equal. Qed.

Lemma chars_inj s t : chars s = chars t → s = t.
Proof.
  intros Heq. rewrite <-(string_of_list_ascii_of_string s),
    <-(string_of_list_ascii_of_string t). by rewrite Heq.
Qed.

Lemma chars_length s : length (chars s) = String.length s.
Proof. induction s as [|c s IH]; [done|]. simpl. by f_equal. Qed.

Lemma chars_substring n m s :
  chars (substring n m s) = take m (drop n (chars s)).
Proof.
  revert n m. induction s as [|c s IH]; intros n m.
  - by destruct n, m.
  - destruct n as [|n]; cbn.
    + destruct m as [|m]; [done|]. cbn. by rewrite IH.
    + apply IH.
Qed.

Lemma startswith_prefix s p :
  startswith s p = true ↔ chars p `prefix_of` chars s.
Proof.
  revert s. induction p as [|a p IH]; intros s; cbn.
  - split; [intros _; apply prefix_nil|done].
  - destruct s as [|b s]; cbn.
    + split; [done|]. by intros ?%prefix_nil_not.
    + rewrite andb_true_iff, Ascii.eqb_eq, IH. split.
      * intros [-> Hp]. by apply prefix_cons.
      * intros Hp. split; [by eapply prefix_cons_inv_1|by eapply prefix_cons_inv_2].
Qed.

Lemma startswith_app s p : startswith s p = true ↔ ∃ r, s = p +:+ r.
Proof.
  rewrite startswith_prefix. split.
  - intros [k Hk]. exists (string_of_list_ascii k). apply chars_inj.
    by rewrite chars_app, list_ascii_of_string_of_list_ascii.
  - intros [r ->]. rewrite chars_app. by eexists.
Qed.

Lemma endswith_suffix s t :
  endswith s t = true ↔ chars t `suffix_of` chars s.
Proof.
  unfold endswith. rewrite andb_true_iff, Nat.leb_le, String.eqb_eq. split.
  - intros [Hle Hsub]. apply (f_equal list_ascii_of_string) in Hsub.
    rewrite chars_substring in Hsub. rewrite <-Hsub.
    rewrite take_ge by (rewrite length_drop, chars_length; lia).
    apply suffix_drop.
  - intros [k Hk]. pose proof (f_equal length Hk) as Hlen.
    rewrite length_app, !chars_length in Hlen. split; [lia|].
    apply chars_inj. rewrite chars_substring, Hk.
    replace (String.length s - String.length t)%nat with (length k) by lia.
    rewrite drop_app_length. apply take_ge. rewrite chars_length. lia.
Qed.

Lemma endswith_app s t : endswith s t = true ↔ ∃ p, s = p +:+ t.
Proof.
  rewrite endswith_suffix. split.
  - intros [k Hk]. exists (string_of_list_ascii k). apply chars_inj.
    by rewrite chars_app, list_ascii_of_string_of_list_ascii.
  - intros [p ->]. rewrite chars_app. by eexists.
Qed.

Lemma drop_last_app p t : drop_last (String.length t) (p +:+ t) = p.
Proof.
  unfold drop_last. apply chars_inj.
  rewrite chars_substring, chars_app, drop_0.
  replace (String.length (p +:+ t) - String.length t)%nat with (length (chars p)).
  - by rewrite take_app_length.
  - rewrite <-!chars_length, chars_app, length_app. lia.
Qed.

Lemma slice_from_app p r : slice_from (String.length p) (p +:+ r) = r.
Proof.
  unfold slice_from. apply chars_inj.
  rewrite chars_substring, chars_app, <-(chars_length p), drop_app_length.
  apply take_ge. rewrite <-!chars_length, chars_app, length_app. lia.
Qed.

Lemma string_app_assoc s t u : (s +:+ t) +:+ u = s +:+ (t +:+ u).
Proof. apply chars_inj. by rewrite !chars_app, app_assoc. Qed.

Lemma string_app_inj_2 s1 s2 t1 t2 :
  String.length t1 = String.length t2 →
  s1 +:+ t1 = s2 +:+ t2 → s1 = s2 ∧ t1 = t2.
Proof.
  intros Hlen Heq. apply (f_equal list_ascii_of_string) in Heq.
  rewrite !chars_app in Heq. apply app_inj_2 in Heq as [? ?].
  - split; by apply chars_inj.
  - by rewrite !chars_length.
Qed.

(** ** Names of shadow variables *)

Section shadow_names.
Context `{TensorFlow} `{!VariableMgrUtil}.

Abbreviation strip_port := VariableMgrDistributedReplicated._strip_port.

Lemma strip_port_app s : strip_port (s +:+ ":0") = s.
Proof.
  unfold VariableMgrDistributedReplicated._strip_port.
  rewrite (proj2 (endswith_app _ _)) by eauto.
  apply (drop_last_app s ":0").
Qed.

Lemma strip_port_id s : endswith s ":0" = false → strip_port s = s.
Proof.
  intros Hs. unfold VariableMgrDistributedReplicated._strip_port.
  by rewrite Hs.
Qed.

(** No string that ends in a slash, or in a slash and one more character,
    ends in [":0"]. *)
Lemma endswith_port_after_slash a n :
  endswith (a +:+ "/" +:+ n) ":0" = endswith n ":0".
Proof.
  destruct (endswith n ":0") eqn:Hn.
  - apply endswith_app in Hn as [p ->]. apply endswith_app.
    exists (a +:+ "/" +:+ p). by rewrite !string_app_assoc.
  - apply not_true_is_false. intros [k Hk]%endswith_suffix.
    rewrite !chars_app in Hk. cbn in Hk.
    assert (¬ chars ":0" `suffix_of` chars n) as Hn'.
    { intros Hs%endswith_suffix. congruence. }
    destruct (chars n) as [|x l _] using rev_ind.
    + apply (f_equal last) in Hk.
      change (k ++ [":"; "0"]%char) with (k ++ [":"%char] ++ ["0"%char]) in Hk.
      by rewrite app_assoc, !last_snoc in Hk.
    + destruct l as [|y l _] using rev_ind.
      * simpl in Hk. by apply app_inj_2 in Hk as [_ [=]].
      * apply Hn'. exists l.
        replace (chars a ++ "/"%char :: (l ++ [y]) ++ [x])
          with ((chars a ++ "/"%char :: l) ++ [y; x]) in Hk
          by (by rewrite <-!app_assoc).
        apply app_inj_2 in Hk as [_ [= -> ->]]; [|done].
        by rewrite <-app_assoc.
Qed.

Lemma strip_port_after_slash a n :
  strip_port (a +:+ "/" +:+ n) = a +:+ "/" +:+ strip_port n.
Proof.
  destruct (endswith n ":0") eqn:Hn.
  - apply endswith_app in Hn as [p ->]. rewrite strip_port_app.
    replace (a +:+ "/" +:+ p +:+ ":0") with ((a +:+ "/" +:+ p) +:+ ":0")
      by (by rewrite !string_app_assoc).
    apply strip_port_app.
  - rewrite (strip_port_id n Hn). apply strip_port_id.
    by rewrite endswith_port_after_slash.
Qed.
End shadow_names.

(** X1: [_strip_port] undoes the appending of [":0"], and never does more
    than take one [":0"] off the end. *)
Theorem strip_port_round_trip (s : string) :
  VariableMgrDistributedReplicated._strip_port (s +:+ ":0") = s
  ∧ (VariableMgrDistributedReplicated._strip_port s = s
     ∨ s = VariableMgrDistributedReplicated._strip_port s +:+ ":0").
Proof.
  split; [apply strip_port_app|].
  destruct (endswith s ":0") eqn:Hs.
  - right. apply endswith_app in Hs as [p ->]. by rewrite strip_port_app.
  - left. by apply strip_port_id.
Qed.

Lemma remove_shadow_prefix_app `{TensorFlow} `{!VariableMgrUtil} (s : string) :
  VariableMgrDistributedReplicated._remove_shadow_var_prefix_if_present
    (PS_SHADOW_VAR_PREFIX +:+ "/" +:+ s) = s.
Proof.
  unfold VariableMgrDistributedReplicated._remove_shadow_var_prefix_if_present.
  rewrite <-string_app_assoc.
  rewrite (proj2 (startswith_app _ _)) by eauto. apply slice_from_app.
Qed.

(** X2: [_remove_shadow_var_prefix_if_present] undoes the prefixing with
    the shadow prefix and a slash, and never does more than take that
    prefix off. *)
Theorem remove_shadow_var_prefix_round_trip `{TensorFlow} `{!VariableMgrUtil}
    (s : string) :
  VariableMgrDistributedReplicated._remove_shadow_var_prefix_if_present
    (PS_SHADOW_VAR_PREFIX +:+ "/" +:+ s) = s
  ∧ (VariableMgrDistributedReplicated._remove_shadow_var_prefix_if_present s = s
     ∨ s = PS_SHADOW_VAR_PREFIX +:+ "/"
           +:+ VariableMgrDistributedReplicated._remove_shadow_var_prefix_if_present s).
Proof.
  split; [apply remove_shadow_prefix_app|].
  unfold VariableMgrDistributedReplicated._remove_shadow_var_prefix_if_present.
  - destruct (startswith s (PS_SHADOW_VAR_PREFIX +:+ "/")) eqn:Hs; [|by left].
    right. apply startswith_app in Hs as [r ->].
    by rewrite slice_from_app, string_app_assoc.
Qed.

(** X3: the shadow variable of [v] is requested under the shadow prefix, a
    slash and the name of [v] without its [":0"]; and the name under which a
    variable called prefix, slash, [n], [":0"] is saved is [n]. *)
Theorem shadow_variable_names `{TensorFlow} `{!VariableMgrUtil}
    (g : Tensor Elem) (v : TfVariable) (n : string) :
  VariableMgrDistributedReplicated.make_shadow (g, v)
  = (new_v ← get_variable
       (PS_SHADOW_VAR_PREFIX +:+ "/"
        +:+ VariableMgrDistributedReplicated._strip_port (name v)) v;
     Ok (g, new_v))
  ∧ VariableMgrDistributedReplicated.var_dict_name
      (mkVariable (PS_SHADOW_VAR_PREFIX +:+ "/" +:+ n +:+ ":0")) = n.
Proof.
  split.
  - unfold VariableMgrDistributedReplicated.make_shadow.
    change (if endswith ?s ":0" then drop_last 2 ?s else ?s)
      with (VariableMgrDistributedReplicated._strip_port s).
    by rewrite strip_port_after_slash.
  - unfold VariableMgrDistributedReplicated.var_dict_name. cbn [name].
    rewrite (remove_shadow_prefix_app (n +:+ ":0")).
    apply strip_port_app.
Qed.

(** ** The variables the distributed replicated manager saves *)

Section distributed_replicated_savable.
Context `{TensorFlow} `{!VariableMgrUtil}.
Implicit Types (params : gmap string TfVariable) (v : TfVariable).

Lemma savable_globals_Ok vars params :
  Forall valid_global vars →
  ∃ params',
    VariableMgrDistributedReplicated.savable_globals vars params = Ok params'.
Proof.
  intros Hvalid. revert params.
  induction Hvalid as [|v vars Hv _ IH]; intros params; [by eexists|].
  cbn [VariableMgrDistributedReplicated.savable_globals].
  replace (_ || _) with true; [apply IH|].
  symmetry. apply orb_true_iff. exact Hv.
Qed.

Lemma savable_globals_Raise vars params :
  ¬ Forall valid_global vars →
  VariableMgrDistributedReplicated.savable_globals vars params
  = Raise AssertionError.
Proof.
  revert params. induction vars as [|v vars IH]; intros params Hinvalid.
  - by destruct Hinvalid.
  - cbn [VariableMgrDistributedReplicated.savable_globals].
    destruct (_ || _) eqn:Hv; [|done]. cbn [py_assert mbind result_bind].
    apply IH. intros Hvars. apply Hinvalid. constructor; [|done].
    by apply orb_true_iff.
Qed.

(** What holds of every saved name and variable holds after the first
    loop, if it holds before and of every global variable with its name. *)
Lemma savable_globals_inv (Q : string → TfVariable → Prop) vars params params' :
  VariableMgrDistributedReplicated.savable_globals vars params = Ok params' →
  (∀ k v, params !! k = Some v → Q k v) →
  (∀ v, v ∈ vars → valid_global v →
        Q (VariableMgrDistributedReplicated.var_dict_name v) v) →
  ∀ k v, params' !! k = Some v → Q k v.
Proof.
  revert params. induction vars as [|w vars IH]; intros params Hloop Hparams Hvars.
  - by injection Hloop as <-.
  - cbn [VariableMgrDistributedReplicated.savable_globals] in Hloop.
    destruct (_ || _) eqn:Hw; [|done]. cbn [py_assert mbind result_bind] in Hloop.
    eapply IH; [exact Hloop| |].
    + intros k v. destruct (decide (k = VariableMgrDistributedReplicated.var_dict_name w))
        as [->|Hne].
      * unfold VariableMgrDistributedReplicated.var_dict_name.
        rewrite lookup_insert_eq. intros [= <-].
        apply Hvars; [apply list_elem_of_here|by apply orb_true_iff].
      * unfold VariableMgrDistributedReplicated.var_dict_name in Hne.
        rewrite lookup_insert_ne by done. apply Hparams.
    + intros v Hv. apply Hvars. by apply list_elem_of_further.
Qed.

Lemma savable_locals_inv (Q : string → TfVariable → Prop)
    trainable_variables vars params :
  (∀ k v, params !! k = Some v → Q k v) →
  (∀ v, v ∈ vars → saved_local trainable_variables v →
        Q (VariableMgrDistributedReplicated._strip_port (name v)) v) →
  ∀ k v,
    VariableMgrDistributedReplicated.savable_locals
      trainable_variables vars params !! k = Some v → Q k v.
Proof.
  revert params. induction vars as [|w vars IH]; intros params Hparams Hvars.
  - done.
  - cbn [VariableMgrDistributedReplicated.savable_locals].
    destruct (_ && _) eqn:Hw.
    + apply IH.
      * intros k v.
        destruct (decide (k = VariableMgrDistributedReplicated._strip_port (name w)))
          as [->|Hne].
        -- rewrite lookup_insert_eq. intros [= <-].
           apply Hvars; [apply list_elem_of_here|].
           apply andb_true_iff in Hw as [Hv0 Hnot]. split; [done|].
           by apply negb_true_iff, bool_decide_eq_false in Hnot.
        -- rewrite lookup_insert_ne by done. apply Hparams.
      * intros v Hv. apply Hvars. by apply list_elem_of_further.
    + apply IH; [done|]. intros v Hv. apply Hvars. by apply list_elem_of_further.
Qed.
End distributed_replicated_savable.

Section distributed_replicated_keys.
Context `{TensorFlow} `{!VariableMgrUtil}.
Implicit Types (params : gmap string TfVariable) (v : TfVariable).

Lemma startswith_v0_strip_port s :
  startswith s "v0/" = true →
  startswith (VariableMgrDistributedReplicated._strip_port s) "v0/" = true.
Proof.
  intros Hs. destruct (endswith s ":0") eqn:Hport.
  - apply endswith_app in Hport as [p ->]. rewrite strip_port_app.
    apply startswith_prefix in Hs. apply startswith_prefix.
    rewrite chars_app in Hs. destruct (chars p) as [|c [|d [|e l]]]; simpl in *.
    + by apply prefix_cons_inv_1 in Hs.
    + apply prefix_cons_inv_2 in Hs. by apply prefix_cons_inv_1 in Hs.
    + do 2 apply prefix_cons_inv_2 in Hs. by apply prefix_cons_inv_1 in Hs.
    + pose proof (prefix_cons_inv_1 _ _ _ _ Hs) as <-.
      apply prefix_cons_inv_2 in Hs.
      pose proof (prefix_cons_inv_1 _ _ _ _ Hs) as <-.
      apply prefix_cons_inv_2 in Hs.
      pose proof (prefix_cons_inv_1 _ _ _ _ Hs) as <-.
      by exists l.
  - by rewrite strip_port_id.
Qed.

Lemma contains_chars c s : contains c s = true ↔ c ∈ chars s.
Proof.
  induction s as [|b s IH]; simpl.
  - split; [done|]. by intros ?%elem_of_nil.
  - rewrite orb_true_iff, Ascii.eqb_eq, IH, elem_of_cons. done.
Qed.

Lemma startswith_slash s a :
  startswith s (a +:+ "/") = true → contains "/" s = true.
Proof.
  intros [r ->]%startswith_app. apply contains_chars.
  rewrite !chars_app. apply elem_of_app. left. apply elem_of_app. right.
  apply list_elem_of_here.
Qed.

(** The name a valid global variable is saved under. *)
Lemma valid_global_key v :
  valid_global v →
  let k := VariableMgrDistributedReplicated.var_dict_name v in
  startswith k "v0/" = true
  ∨ k ∈ ["global_step"; "loss_scale"; "loss_scale_normal_steps"].
Proof.
  intros [Hshadow|Hstep] k; subst k;
    unfold VariableMgrDistributedReplicated.var_dict_name.
  - left. apply startswith_app in Hshadow as [r Hr].
    replace (name v) with (PS_SHADOW_VAR_PREFIX +:+ "/" +:+ "v0/" +:+ r)
      by (rewrite Hr; by rewrite !string_app_assoc).
    rewrite remove_shadow_prefix_app.
    apply startswith_v0_strip_port. apply startswith_app. by exists r.
  - right.
    unfold VariableMgrDistributedReplicated._remove_shadow_var_prefix_if_present.
    destruct (startswith (name v) (PS_SHADOW_VAR_PREFIX +:+ "/")) eqn:Hprefix.
    { apply startswith_slash in Hprefix.
      unfold VariableMgrDistributedReplicated.is_step_or_loss_scale in Hstep.
      apply orb_true_iff in Hstep as [Hstep|Hstep];
        [apply orb_true_iff in Hstep as [Hstep|Hstep]|];
        apply String.eqb_eq in Hstep; rewrite Hstep in Hprefix;
        by vm_compute in Hprefix. }
    unfold VariableMgrDistributedReplicated.is_step_or_loss_scale in Hstep.
    apply orb_true_iff in Hstep as [Hstep|Hstep];
      [apply orb_true_iff in Hstep as [Hstep|Hstep]|];
      apply String.eqb_eq in Hstep; rewrite Hstep.
    + change "global_step:0" with ("global_step" +:+ ":0").
      rewrite strip_port_app. apply list_elem_of_here.
    + change "loss_scale:0" with ("loss_scale" +:+ ":0").
      rewrite strip_port_app. apply list_elem_of_further, list_elem_of_here.
    + change "loss_scale_normal_steps:0"
        with ("loss_scale_normal_steps" +:+ ":0").
      rewrite strip_port_app.
      do 2 apply list_elem_of_further. apply list_elem_of_here.
Qed.

Lemma savable_globals_keys vars params params' :
  VariableMgrDistributedReplicated.savable_globals vars params = Ok params' →
  (∀ k, is_Some (params !! k) → is_Some (params' !! k))
  ∧ ∀ v, v ∈ vars →
         is_Some (params' !! VariableMgrDistributedReplicated.var_dict_name v).
Proof.
  revert params. induction vars as [|w vars IH]; intros params Hloop.
  - injection Hloop as <-. split; [done|]. by intros v ?%elem_of_nil.
  - cbn [VariableMgrDistributedReplicated.savable_globals] in Hloop.
    destruct (_ || _) eqn:Hw; [|done]. cbn [py_assert mbind result_bind] in Hloop.
    destruct (IH _ Hloop) as [Hmono Hvars]. split.
    + intros k Hk. apply Hmono. rewrite lookup_insert.
      by destruct (decide _).
    + intros v [->|Hv]%elem_of_cons; [|by apply Hvars].
      apply Hmono. unfold VariableMgrDistributedReplicated.var_dict_name.
      by rewrite lookup_insert_eq.
Qed.

Lemma savable_locals_keys trainable_variables vars params :
  let params' :=
    VariableMgrDistributedReplicated.savable_locals
      trainable_variables vars params in
  (∀ k, is_Some (params !! k) → is_Some (params' !! k))
  ∧ ∀ v, v ∈ vars → saved_local trainable_variables v →
         is_Some (params' !! VariableMgrDistributedReplicated._strip_port (name v)).
Proof.
  revert params. induction vars as [|w vars IH]; intros params; cbn zeta.
  - split; [done|]. by intros v ?%elem_of_nil.
  - cbn [VariableMgrDistributedReplicated.savable_locals].
    destruct (_ && _) eqn:Hw.
    + destruct (IH (<[VariableMgrDistributedReplicated._strip_port (name w) := w]>
                      params)) as [Hmono Hvars]. split.
      * intros k Hk. apply Hmono. rewrite lookup_insert. by destruct (decide _).
      * intros v [->|Hv]%elem_of_cons Hsaved; [|by apply Hvars].
        apply Hmono. by rewrite lookup_insert_eq.
    + destruct (IH params) as [Hmono Hvars]. split; [done|].
      intros v [->|Hv]%elem_of_cons [Hv0 Hnot]; [|by apply Hvars].
      apply andb_false_iff in Hw as [Hw|Hw]; [congruence|].
      apply negb_false_iff, bool_decide_eq_true in Hw. done.
Qed.
End distributed_replicated_keys.

(** X4: the distributed replicated manager refuses to name the variables to
    save, with [AssertionError], exactly when some global variable is
    neither a shadow variable of tower 0 nor one of [global_step:0],
    [loss_scale:0] and [loss_scale_normal_steps:0]. *)
Theorem distributed_replicated_savable_assertion
    `{TensorFlow} `{!VariableMgrUtil}
    (global_variables local_variables trainable_variables : list TfVariable) :
  match VariableMgrDistributedReplicated.savable_variables
          global_variables local_variables trainable_variables with
  | Ok _ => Forall valid_global global_variables
  | Raise e => e = AssertionError ∧ ¬ Forall valid_global global_variables
  end.
Proof.
  unfold VariableMgrDistributedReplicated.savable_variables.
  destruct (decide (Forall valid_global global_variables)) as [Hvalid|Hinvalid].
  - destruct (savable_globals_Ok global_variables ∅ Hvalid) as [params ->].
    done.
  - by rewrite savable_globals_Raise.
Qed.

(** X5: whenever the distributed replicated manager names the variables to
    save, every name in the result starts with ["v0/"] or is [global_step],
    [loss_scale] or [loss_scale_normal_steps], so no name keeps the shadow
    prefix or belongs to another tower; the variable under it is a global
    variable or a local one; and every global variable, and every local
    variable of tower 0 that is not trainable, is saved under its name. *)
Theorem distributed_replicated_savable_keys `{TensorFlow} `{!VariableMgrUtil}
    (global_variables local_variables trainable_variables : list TfVariable)
    (params : gmap string TfVariable) :
  VariableMgrDistributedReplicated.savable_variables
    global_variables local_variables trainable_variables = Ok params →
  (∀ k v,
     params !! k = Some v →
     (startswith k "v0/" = true
      ∨ k ∈ ["global_step"; "loss_scale"; "loss_scale_normal_steps"])
     ∧ (v ∈ global_variables ∨ v ∈ local_variables))
  ∧ (∀ v, v ∈ global_variables →
          is_Some (params !! VariableMgrDistributedReplicated.var_dict_name v))
  ∧ (∀ v, v ∈ local_variables →
          startswith (name v) "v0/" = true → v ∉ trainable_variables →
          is_Some (params
                   !! VariableMgrDistributedReplicated._strip_port (name v))).
Proof.
  unfold VariableMgrDistributedReplicated.savable_variables.
  intros (params1 & Hglobals & [= <-])%bind_Ok. split; [|split].
  - apply savable_locals_inv.
    + eapply savable_globals_inv; [exact Hglobals|done|].
      intros v Hv Hvalid. split; [by apply valid_global_key|by left].
    + intros v Hv [Hv0 _]. split; [|by right].
      left. by apply startswith_v0_strip_port.
  - intros v Hv.
    apply (proj1 (savable_locals_keys trainable_variables local_variables params1)).
    by apply (proj2 (savable_globals_keys _ _ _ Hglobals)).
  - intros v Hv Hv0 Hnot.
    by apply (proj2 (savable_locals_keys trainable_variables local_variables
                       params1)).
Qed.

(** ** The trainable variables of a device *)

Lemma pretty_N_go_no_slash (x : N) (s : string) :
  contains "/" s = false → contains "/" (pretty_N_go x s) = false.
Proof.
  revert s. induction (N.lt_wf_0 x) as [x _ IH]; intros s Hs.
  destruct (decide (x = 0)%N) as [->|Hx].
  - by rewrite pretty_N_go_0.
  - rewrite pretty_N_go_step by lia. apply IH.
    + apply N.div_lt; lia.
    + cbn [contains]. rewrite Hs, orb_false_r.
      unfold pretty_N_char. by repeat case_match.
Qed.

Lemma pretty_no_slash (z : Z) : contains "/" (pretty z) = false.
Proof.
  assert (∀ x : N, contains "/" (pretty x) = false) as HN.
  { intros x. unfold pretty, pretty_N. destruct (decide _); [done|].
    by apply pretty_N_go_no_slash. }
  destruct z as [|p|p]; [done|apply (HN (Npos p))|].
  unfold pretty, pretty_Z. cbn [String.append contains].
  apply (HN (Npos p)).
Qed.

(** Two names without a slash that are both followed by a slash at the
    start of one string are the same name. *)
Lemma startswith_slash_unique s p q :
  contains "/" p = false → contains "/" q = false →
  startswith s (p +:+ "/") = true → startswith s (q +:+ "/") = true →
  p = q.
Proof.
  revert p q. induction s as [|c s IH]; intros [|a p] [|b q];
    cbn [String.append startswith contains]; try done.
  - intros _ Hq [<-%Ascii.eqb_eq _]%andb_true_iff [->%Ascii.eqb_eq _]%andb_true_iff.
    by rewrite Ascii.eqb_refl in Hq.
  - intros Hp _ [->%Ascii.eqb_eq _]%andb_true_iff [<-%Ascii.eqb_eq _]%andb_true_iff.
    by rewrite Ascii.eqb_refl in Hp.
  - intros [_ Hp]%orb_false_iff [_ Hq]%orb_false_iff
      [->%Ascii.eqb_eq Hsp]%andb_true_iff [->%Ascii.eqb_eq Hsq]%andb_true_iff.
    f_equal. by apply IH.
Qed.

(** X6: when every tower has its own variables, no trainable variable is
    among the variables of two different devices. *)
Theorem trainable_variables_on_one_device
    (trainable_variables : list TfVariable)
    (rel_device_num rel_device_num' abs_device_num abs_device_num' : Z)
    (writable writable' : bool) (v : TfVariable) :
  abs_device_num ≠ abs_device_num' →
  v ∈ VariableMgr.trainable_variables_on_device
        true trainable_variables rel_device_num abs_device_num writable →
  v ∉ VariableMgr.trainable_variables_on_device
        true trainable_variables rel_device_num' abs_device_num' writable'.
Proof.
  unfold VariableMgr.trainable_variables_on_device.
  intros Hne [Hv _]%list_elem_of_filter [Hv' _]%list_elem_of_filter.
  apply Hne.
  cbn [String.append] in Hv, Hv'.
  destruct (name v) as [|c s]; [done|]. cbn [startswith] in Hv, Hv'.
  apply andb_true_iff in Hv as [_ Hv]. apply andb_true_iff in Hv' as [_ Hv'].
  apply (inj (@pretty Z _)).
  eapply startswith_slash_unique; eauto using pretty_no_slash.
Qed.

(** ** Which device numbers are accepted *)

(** Indexing returns exactly for the indices from [-len] up to [len - 1],
    the negative ones counting from the end. *)
Lemma py_index_Ok {A} (l : list A) (i : Z) (x : A) :
  let n := Z.of_nat (length l) in
  py_index l i = Ok x ↔ - n ≤ i < n ∧ l !! Z.to_nat (i `mod` n) = Some x.
Proof.
  intros n. unfold py_index. fold n.
  destruct (0 <=? i) eqn:H0; destruct (i <? n) eqn:Hn; cbn [andb].
  - apply Z.leb_le in H0. apply Z.ltb_lt in Hn.
    rewrite Z.mod_small by lia.
    destruct (l !! Z.to_nat i); split; intros; destruct_and?; simplify_eq;
      try done; split; (lia || done).
  - apply Z.leb_le in H0. apply Z.ltb_ge in Hn.
    replace (i <? 0) with false by (symmetry; apply Z.ltb_ge; lia).
    rewrite andb_false_r. split; [done|]. intros [? _]. lia.
  - apply Z.leb_gt in H0. apply Z.ltb_lt in Hn.
    replace (i <? 0) with true by (symmetry; apply Z.ltb_lt; lia).
    rewrite andb_true_r. destruct (- n <=? i) eqn:Hlow.
    + apply Z.leb_le in Hlow.
      rewrite <-(Z.mod_add i 1 n) by lia. rewrite Z.mod_small by lia.
      replace (i + 1 * n) with (n + i) by lia.
      destruct (l !! Z.to_nat (n + i)); split; intros; destruct_and?;
        simplify_eq; try done; split; (lia || done).
    + apply Z.leb_gt in Hlow. split; [done|]. intros [? _]. lia.
  - apply Z.leb_gt in H0. apply Z.ltb_ge in Hn. lia.
Qed.

(** X7: the managers that hand out one list per tower (independent, local
    replicated, distributed all-reduce) accept exactly the device numbers
    from [-len] up to [len - 1] of the gradient state, a negative number
    counting from the end; the distributed all-reduce manager raises
    [ValueError] above that range and [IndexError] below it. *)
Theorem device_num_range `{TensorFlow} `{!AllReduce} `{!VariableMgrUtil}
    (mgr : variable_mgr) (device_num : Z) (gradient_state : DeviceGrads) :
  let n := Z.of_nat (length gradient_state) in
  applies_on_parameter_server mgr = false →
  (∀ to_apply,
     get_gradients_to_apply mgr device_num gradient_state = Ok to_apply
     ↔ - n ≤ device_num < n
       ∧ gradient_state !! Z.to_nat (device_num `mod` n) = Some to_apply)
  ∧ (∀ self, mgr = DistributedAllReduce self →
       (n ≤ device_num →
        ∃ msg, get_gradients_to_apply mgr device_num gradient_state
               = Raise (ValueError msg))
       ∧ (device_num < - n →
          get_gradients_to_apply mgr device_num gradient_state
          = Raise IndexError)).
Proof.
  intros n Hmgr. split.
  - intros to_apply.
    destruct mgr as [self|self|self|self|self|self|self|self]; try done;
      cbn [get_gradients_to_apply].
    + unfold VariableMgrIndependent.get_gradients_to_apply.
      etrans; [|apply py_index_Ok].
      destruct (py_index gradient_state device_num) as [row|e]; [|done].
      cbn. destruct (_ && _); cbn; split; congruence.
    + apply py_index_Ok.
    + unfold VariableMgrDistributedAllReduce.get_gradients_to_apply. fold n.
      destruct (n <=? device_num) eqn:Hhigh; [|apply py_index_Ok].
      apply Z.leb_le in Hhigh. split; [done|]. intros [? _]. lia.
  - intros self ->. cbn [get_gradients_to_apply].
    unfold VariableMgrDistributedAllReduce.get_gradients_to_apply. fold n. split.
    + intros Hhigh. rewrite (proj2 (Z.leb_le _ _) Hhigh). by eexists.
    + intros Hlow. rewrite (proj2 (Z.leb_gt _ _)) by lia.
      destruct (py_index gradient_state device_num) as [row|e] eqn:Hidx.
      * apply py_index_Ok in Hidx as [? _]. lia.
      * unfold py_index in Hidx. by repeat case_match.
Qed.

(** ** The ranges of an all-reduce spec, merged *)

Section all_reduce_merge.
Context `{TensorFlow} `{!AllReduce} `{!VariableMgrUtil}.

Lemma merge_range_grows (aggregated range_agg aggregated' : DeviceGrads) :
  aggregated ≠ [] →
  VariableMgrDistributedAllReduce.merge_range aggregated range_agg
  = Ok aggregated' →
  length aggregated' = length aggregated
  ∧ ∀ i row, aggregated !! i = Some row →
             ∃ more, range_agg !! i = Some more
                     ∧ aggregated' !! i = Some (row ++ more).
Proof.
  intros Hne. unfold VariableMgrDistributedAllReduce.merge_range.
  replace (py_truthy aggregated) with true by (by destruct aggregated).
  cbn [negb].
  destruct (length aggregated =? length range_agg)%nat eqn:Hlen; [|done].
  apply Nat.eqb_eq in Hlen. cbn [py_assert mbind result_bind]. intros [= <-].
  split; [rewrite length_zip_with; lia|].
  intros i row Hi.
  destruct (lookup_lt_is_Some_2 range_agg i) as [more Hmore].
  { rewrite <-Hlen. by eapply lookup_lt_Some. }
  exists more. split; [done|]. by rewrite lookup_zip_with, Hi, Hmore.
Qed.

Lemma reduce_range_grows self spec_tuple
    (aggregated remaining aggregated' remaining' : DeviceGrads) :
  aggregated ≠ [] →
  VariableMgrDistributedAllReduce.reduce_range
    self spec_tuple (aggregated, remaining) = Ok (aggregated', remaining') →
  length aggregated' = length aggregated
  ∧ ∀ i row, aggregated !! i = Some row →
             ∃ more, aggregated' !! i = Some (row ++ more).
Proof.
  intros Hne. unfold VariableMgrDistributedAllReduce.reduce_range.
  intros ([this_grads remaining1] & _ & Hrest)%bind_Ok.
  destruct (py_truthy this_grads).
  - apply bind_Ok in Hrest as (range_agg & _ & Hrest).
    apply bind_Ok in Hrest as (aggregated1 & Hmerge & [= <- <-]).
    destruct (merge_range_grows _ _ _ Hne Hmerge) as [Hlen Hrows].
    split; [done|]. intros i row Hi.
    destruct (Hrows i row Hi) as (more & _ & ?). by exists more.
  - injection Hrest as <- <-. split; [done|]. intros i row Hi.
    exists []. by rewrite app_nil_r.
Qed.
End all_reduce_merge.

(** X8: in the loop of the distributed all-reduce manager over the ranges of
    its spec, once some range has been reduced the number of per-device
    lists never changes and every list only grows at its end, so the
    gradients of an earlier range stay in front of those of a later one; a
    reduced range with another number of lists fails the assertion. *)
Theorem all_reduce_ranges_only_append
    `{TensorFlow} `{!AllReduce} `{!VariableMgrUtil}
    (self : VariableMgrDistributedAllReduce.t) (spec : list AllReduceSpecTuple)
    (aggregated remaining aggregated' remaining' : DeviceGrads) :
  aggregated ≠ [] →
  VariableMgrDistributedAllReduce.reduce_ranges
    self spec (aggregated, remaining) = Ok (aggregated', remaining') →
  length aggregated' = length aggregated
  ∧ (∀ i row, aggregated !! i = Some row →
              ∃ more, aggregated' !! i = Some (row ++ more))
  ∧ ∀ range_agg_grads : DeviceGrads,
      length range_agg_grads ≠ length aggregated →
      VariableMgrDistributedAllReduce.merge_range aggregated range_agg_grads
      = Raise AssertionError.
Proof.
  intros Hne Hloop.
  cut ((length aggregated' = length aggregated
        ∧ ∀ i row, aggregated !! i = Some row →
                   ∃ more, aggregated' !! i = Some (row ++ more))
       ∧ ∀ range_agg_grads : DeviceGrads,
           length range_agg_grads ≠ length aggregated →
           VariableMgrDistributedAllReduce.merge_range
             aggregated range_agg_grads = Raise AssertionError);
    [tauto|].
  split.
  - revert aggregated remaining Hne Hloop.
    induction spec as [|spec_tuple spec IH]; intros aggregated remaining Hne.
    + intros [= <- <-]. split; [done|]. intros i row Hi.
      exists []. by rewrite app_nil_r.
    + cbn [VariableMgrDistributedAllReduce.reduce_ranges].
      intros ([aggregated1 remaining1] & Hstep & Hloop)%bind_Ok.
      destruct (reduce_range_grows _ _ _ _ _ _ Hne Hstep) as [Hlen1 Hrows1].
      assert (aggregated1 ≠ []) as Hne1.
      { intros ->. by destruct aggregated. }
      destruct (IH _ _ Hne1 Hloop) as [Hlen Hrows].
      split; [congruence|]. intros i row Hi.
      destruct (Hrows1 i row Hi) as [more1 Hrow1].
      destruct (Hrows i _ Hrow1) as [more Hrow].
      exists (more1 ++ more). by rewrite app_assoc.
  - intros range_agg_grads Hlen.
    unfold VariableMgrDistributedAllReduce.merge_range.
    replace (py_truthy aggregated) with true by (by destruct aggregated).
    cbn [negb]. by rewrite (proj2 (Nat.eqb_neq _ _)) by done.
Qed.

(** ** What is copied after initialization, and what is saved *)

Lemma split_join_v0 pieces :
  head (split "/" (join "/" ("v0" :: pieces))) = Some "v0".
Proof.
  destruct pieces as [|p ps]; [done|].
  cbn [join]. generalize (join "/" (p :: ps)). intros r.
  cbn. by destruct (split "/" r).
Qed.

Lemma lookup_by_name_Ok global_variables key w :
  lookup_by_name global_variables key = Ok w →
  w ∈ global_variables ∧ name w = key.
Proof.
  unfold lookup_by_name. destruct (last _) as [w'|] eqn:Hlast; [|done].
  intros [= ->]. apply last_Some_elem_of in Hlast.
  by apply list_elem_of_filter in Hlast as [? ?].
Qed.

Lemma lookup_by_name_Raise global_variables key e :
  lookup_by_name global_variables key = Raise e →
  e = KeyError key ∧ ∀ w, w ∈ global_variables → name w ≠ key.
Proof.
  unfold lookup_by_name. destruct (last _) as [w'|] eqn:Hlast; [done|].
  intros [= <-]. split; [done|]. intros w Hw Hname.
  apply last_None in Hlast.
  assert (w ∈ filter (λ v, name v = key) global_variables) as Hin
    by (by apply list_elem_of_filter).
  rewrite Hlast in Hin. by apply elem_of_nil in Hin.
Qed.

Lemma mapM_Raise {A B} (f : A → result B) (l : list A) e :
  mapM f l = Raise e → ∃ x, x ∈ l ∧ f x = Raise e.
Proof.
  induction l as [|x l IH]; [done|]. rewrite mapM_Ok_cons.
  destruct (f x) as [y|e'] eqn:Hx; cbn [mbind result_bind].
  - destruct (mapM f l) as [k|e'] eqn:Hl; cbn [mbind result_bind]; [done|].
    intros [= ->]. destruct IH as (x' & ? & ?); [done|].
    exists x'. split; [by apply list_elem_of_further|done].
  - intros [= ->]. exists x. split; [apply list_elem_of_here|done].
Qed.

(** A global variable is left out of the saved ones exactly when its name
    starts with ['v'] and it is not in scope ['v0']. *)
Lemma not_saved_iff global_variables v :
  v ∈ global_variables →
  v ∉ VariableMgrLocalReplicated.savable_variables global_variables
  ↔ ¬ in_variable_scope 0 v ∧ startswith (name v) "v" = true.
Proof.
  intros Hv. unfold VariableMgrLocalReplicated.savable_variables.
  rewrite savable_loop_described. cbn [app].
  unfold savable_variables_described. rewrite list_elem_of_filter.
  destruct (startswith (name v) "v"); intuition congruence.
Qed.

Section post_init_copies.
Context `{TensorFlow}.

Lemma copy_from_v0_targets global_variables vars (ops : list (Op Elem)) :
  Forall2 (λ v op, copy_from_v0 global_variables v = Ok op) vars ops →
  omap assigned_to ops = vars.
Proof.
  induction 1 as [|v op vars ops Hop _ IH]; [done|].
  unfold copy_from_v0 in Hop.
  apply bind_Ok in Hop as (copy_from & _ & [= <-]).
  cbn. by rewrite IH.
Qed.

Lemma post_init_ops_Forall2 global_variables :
  VariableMgrLocalReplicated.get_post_init_ops global_variables
  = mapM (copy_from_v0 (E:=Elem) global_variables)
         (filter (λ v, ¬ in_variable_scope 0 v ∧ startswith (name v) "v" = true)
                 global_variables).
Proof.
  unfold VariableMgrLocalReplicated.get_post_init_ops.
  rewrite post_init_loop_described. by destruct (mapM _ _).
Qed.
End post_init_copies.

(** X9: whenever the local replicated manager returns the
    post-initialization operations, each is an assignment to a global
    variable that is not saved, from a saved variable of tower 0 whose name
    is that of the assigned one with its first component replaced by
    ["v0"]; and the assigned variables together with the saved ones are
    exactly the global variables. *)
Theorem post_init_restores_unsaved `{TensorFlow}
    (global_variables : list TfVariable) (ops : list (Op Elem)) :
  VariableMgrLocalReplicated.get_post_init_ops global_variables = Ok ops →
  omap assigned_to ops
  ++ VariableMgrLocalReplicated.savable_variables global_variables
  ≡ₚ global_variables
  ∧ ∀ op, op ∈ ops →
      ∃ v copy_from,
        op = Assign v (ReadValue copy_from [] None) [] None
        ∧ v ∈ global_variables
        ∧ (v ∉ VariableMgrLocalReplicated.savable_variables global_variables)
        ∧ copy_from
          ∈ VariableMgrLocalReplicated.savable_variables global_variables
        ∧ name copy_from = v0_name v.
Proof.
  rewrite post_init_ops_Forall2. intros Hops%mapM_Ok_Forall2. split.
  - rewrite (copy_from_v0_targets _ _ _ Hops).
    unfold VariableMgrLocalReplicated.savable_variables.
    rewrite savable_loop_described. cbn [app].
    unfold savable_variables_described.
    rewrite Permutation_app_comm.
    rewrite <-(filter_app_complement
                 (λ v, in_variable_scope 0 v ∨ startswith (name v) "v" = false)
                 global_variables) at 3.
    apply Permutation_app_head. apply reflexive_eq, list_filter_iff.
    intros v. destruct (startswith (name v) "v"); intuition congruence.
  - intros op [i Hi]%list_elem_of_lookup.
    destruct (Forall2_lookup_r _ _ _ _ _ Hops Hi) as (v & Hv & Hop).
    apply list_elem_of_lookup_2, list_elem_of_filter in Hv as [Hv Hin].
    unfold copy_from_v0 in Hop.
    apply bind_Ok in Hop as (copy_from & Hlookup & [= <-]).
    apply lookup_by_name_Ok in Hlookup as [Hfrom Hname].
    exists v, copy_from. split; [done|]. split; [done|].
    split; [by apply not_saved_iff|]. split; [|done].
    unfold VariableMgrLocalReplicated.savable_variables.
    rewrite savable_loop_described. apply list_elem_of_filter.
    split; [|done]. left. unfold in_variable_scope.
    rewrite Hname. apply split_join_v0.
Qed.

(** X10: the local replicated manager returns the post-initialization
    operations exactly when every global variable that is not saved has a
    namesake in scope ['v0'] among the global variables; otherwise it
    raises [KeyError] with the name that is missing. *)
Theorem post_init_needs_v0 `{TensorFlow} (global_variables : list TfVariable) :
  match VariableMgrLocalReplicated.get_post_init_ops global_variables with
  | Ok _ =>
      ∀ v, v ∈ global_variables →
           v ∉ VariableMgrLocalReplicated.savable_variables global_variables →
           ∃ w, w ∈ global_variables ∧ name w = v0_name v
  | Raise e =>
      ∃ v, v ∈ global_variables
           ∧ (v ∉ VariableMgrLocalReplicated.savable_variables global_variables)
           ∧ e = KeyError (v0_name v)
           ∧ ∀ w, w ∈ global_variables → name w ≠ v0_name v
  end.
Proof.
  rewrite post_init_ops_Forall2.
  destruct (mapM _ _) as [ops|e] eqn:Hops.
  - apply mapM_Ok_Forall2 in Hops. intros v Hv Hnot.
    apply not_saved_iff in Hnot; [|done].
    assert (v ∈ filter (λ v, ¬ in_variable_scope 0 v
                             ∧ startswith (name v) "v" = true)
                       global_variables) as [i Hi]%list_elem_of_lookup
      by (by apply list_elem_of_filter).
    destruct (Forall2_lookup_l _ _ _ _ _ Hops Hi) as (op & _ & Hop).
    unfold copy_from_v0 in Hop.
    apply bind_Ok in Hop as (w & Hlookup & _).
    apply lookup_by_name_Ok in Hlookup. by exists w.
  - apply mapM_Raise in Hops as (v & [Hin Hv]%list_elem_of_filter & Hop).
    unfold copy_from_v0 in Hop.
    destruct (lookup_by_name global_variables (v0_name v)) as [w|e'] eqn:Hlookup;
      [done|].
    injection Hop as ->. apply lookup_by_name_Raise in Hlookup as [-> Hnone].
    exists v. split; [done|]. split; [by apply not_saved_iff|]. done.
Qed.

(** ** The sizes of the packs *)

(** X11: of the [K] packs a buffer of [T] elements is split into, the last
    one is larger than the others by the remainder [T mod K], so by less
    than [K]; all packs are equal when [K] divides [T], and all packs but
    the last are empty when [T < K]. *)
Theorem split_sizes_remainder (total num_splits : nat) :
  (0 < num_splits)%nat →
  VariableMgrLocalReplicated.split_sizes total num_splits
  = replicate (num_splits - 1) (total / num_splits)%nat
    ++ [(total / num_splits + total `mod` num_splits)%nat]
  ∧ (total `mod` num_splits < num_splits)%nat
  ∧ ((total `mod` num_splits)%nat = 0%nat →
     VariableMgrLocalReplicated.split_sizes total num_splits
     = replicate num_splits (total / num_splits)%nat)
  ∧ ((total < num_splits)%nat →
     VariableMgrLocalReplicated.split_sizes total num_splits
     = replicate (num_splits - 1) 0%nat ++ [total]).
Proof.
  intros Hpos.
  assert ((total - total / num_splits * (num_splits - 1))%nat
          = (total / num_splits + total `mod` num_splits)%nat) as Hlast.
  { pose proof (Nat.div_mod_eq total num_splits) as Hdiv.
    set (q := (total / num_splits)%nat) in *.
    set (r := (total `mod` num_splits)%nat) in *.
    destruct num_splits as [|k]; [lia|].
    replace (S k - 1)%nat with k by lia. nia. }
  unfold VariableMgrLocalReplicated.split_sizes. rewrite Hlast.
  split; [done|]. split; [apply Nat.mod_upper_bound; lia|]. split.
  - intros ->. rewrite Nat.add_0_r, <-replicate_S_end. f_equal. lia.
  - intros Hsmall.
    by rewrite Nat.div_small, Nat.mod_small by done.
Qed.

(** ** The managers a constructor returns *)

(** X12: every manager the constructor of the distributed all-reduce
    manager returns was given a non-empty spec string, holds the ranges it
    parses to, of which there is at least one, and the device prefixes of
    the job, and starts without staging operations and without an Inf/NaN
    flag. *)
Theorem distributed_all_reduce_init `{TensorFlow} `{!AllReduce} `{!VariableMgrUtil}
    (cnn : BenchmarkCNN) (all_reduce_spec : option string) (job_name : string)
    (num_workers max_bytes max_group : Z)
    (self : VariableMgrDistributedAllReduce.t) :
  VariableMgrDistributedAllReduce.__init__
    cnn all_reduce_spec job_name num_workers max_bytes max_group = Ok self →
  ∃ s,
    all_reduce_spec = Some s ∧ s ≠ ""
    ∧ parse_all_reduce_spec s
      = Ok (VariableMgrDistributedAllReduce._all_reduce_spec self)
    ∧ VariableMgrDistributedAllReduce._all_reduce_spec self ≠ []
    ∧ build_all_reduce_device_prefixes job_name num_workers
      = Ok (VariableMgrDistributedAllReduce._all_reduce_device_prefixes self)
    ∧ VariableMgrDistributedAllReduce.base self = VariableMgr.mk cnn [] None.
Proof.
  unfold VariableMgrDistributedAllReduce.__init__.
  destruct all_reduce_spec as [[|c s]|]; [done| |done].
  intros (spec & Hparse & (prefixes & Hprefixes & Hself)%bind_Ok)%bind_Ok.
  destruct spec as [|spec0 spec]; [done|]. injection Hself as <-.
  by exists (String c s).
Qed.

(** X13: the constructor of the local replicated manager returns a manager
    without a spec when it is given no spec string or an empty one, and a
    manager with the single range when the string parses to exactly one;
    it raises what the parser raises, and [ValueError] when the string
    parses to no range or to several. *)
Theorem local_replicated_init `{TensorFlow} `{!AllReduce} `{!VariableMgrUtil}
    (cnn : BenchmarkCNN) (all_reduce_spec : option string)
    (max_bytes max_group : Z) :
  match VariableMgrLocalReplicated.__init__
          cnn all_reduce_spec max_bytes max_group with
  | Ok self =>
      VariableMgrLocalReplicated.base self = VariableMgr.mk cnn [] None
      ∧ match VariableMgrLocalReplicated._all_reduce_spec self with
        | None => all_reduce_spec = None ∨ all_reduce_spec = Some ""
        | Some spec0 =>
            ∃ s, all_reduce_spec = Some s ∧ s ≠ ""
                 ∧ parse_all_reduce_spec s = Ok [spec0]
        end
  | Raise e =>
      ∃ s, all_reduce_spec = Some s ∧ s ≠ ""
           ∧ (parse_all_reduce_spec s = Raise e
              ∨ ∃ spec, parse_all_reduce_spec s = Ok spec
                        ∧ length spec ≠ 1%nat
                        ∧ e = ValueError
                            "replicated mode does not support hybrid all-reduce strategies")
  end.
Proof.
  unfold VariableMgrLocalReplicated.__init__.
  destruct all_reduce_spec as [[|c s]|]; [by split; [|right]| |by split; [|left]].
  destruct (parse_all_reduce_spec (String c s)) as [spec|e] eqn:Hparse;
    cbn [mbind result_bind].
  - destruct spec as [|spec0 [|spec1 spec]].
    + exists (String c s). split; [done|]. split; [done|]. right.
      by exists [].
    + split; [done|]. by exists (String c s).
    + exists (String c s). split; [done|]. split; [done|]. right.
      by eexists.
  - exists (String c s). split; [done|]. split; [done|]. by left.
Qed.

(** ** Applying on the parameter server *)

(** X14: the managers that apply the gradients on the parameter server and
    assert it (all of them but the distributed replicated one) fail the
    assertion for every device number other than 0, negative ones
    included. *)
Theorem parameter_server_device_num
    `{TensorFlow} `{!AllReduce} `{!VariableMgrUtil}
    (mgr : variable_mgr) (device_num : Z) (gradient_state : DeviceGrads) :
  applies_on_parameter_server mgr = true →
  (∀ self, mgr ≠ DistributedReplicated self) →
  device_num ≠ 0 →
  get_gradients_to_apply mgr device_num gradient_state = Raise AssertionError.
Proof.
  intros Hps Hmgr Hne.
  destruct mgr as [self|self|self|self|self|self|self|self]; try done;
    cbn [get_gradients_to_apply].
  - unfold VariableMgrLocalFetchFromPS.get_gradients_to_apply.
    by rewrite (proj2 (Z.eqb_neq device_num 0)) by done.
  - unfold VariableMgrLocalFetchFromStagedPS.get_gradients_to_apply,
      VariableMgrLocalFetchFromPS.get_gradients_to_apply.
    by rewrite (proj2 (Z.eqb_neq device_num 0)) by done.
  - unfold VariableMgrDistributedFetchFromPS.get_gradients_to_apply.
    by rewrite (proj2 (Z.eqb_neq device_num 0)) by done.
  - unfold VariableMgrDistributedFetchFromStagedPS.get_gradients_to_apply,
      VariableMgrDistributedFetchFromPS.get_gradients_to_apply.
    by rewrite (proj2 (Z.eqb_neq device_num 0)) by done.
  - by destruct (Hmgr self).
Qed.

(** ** Copying the shadow variables to the towers *)

(** [dict] over keyed items finds the last item that carries the key. *)
Lemma py_dict_keyed_lookup {V} (key_of : V → string) (items : list V)
    (d : gmap string V) key :
  foldl (λ d kv, <[kv.1 := kv.2]> d) d ((λ v, (key_of v, v)) <$> items) !! key
  = match last (filter (λ v, key_of v = key) items) with
    | Some v => Some v
    | None => d !! key
    end.
Proof.
  revert d. induction items as [|v items IH]; intros d; [done|].
  simpl. rewrite IH, filter_cons. destruct (decide (key_of v = key)) as [<-|Hne].
  - rewrite last_cons. destruct (last (filter _ items)); [done|].
    by rewrite lookup_insert_eq.
  - destruct (last (filter _ items)); [done|]. by rewrite lookup_insert_ne.
Qed.

Section shadow_copies.
Context `{TensorFlow} `{!VariableMgrUtil}.

Lemma copy_to_towers_elem local_var_by_name v prefix towers (op : Op Elem) :
  op ∈ VariableMgrDistributedReplicated.copy_to_towers
         local_var_by_name v prefix towers
  ↔ ∃ i copy_to,
      i ∈ towers
      ∧ local_var_by_name !! ("v" +:+ pretty i +:+ prefix) = Some copy_to
      ∧ op = Assign copy_to (ReadValue v [] None) [] None.
Proof.
  induction towers as [|i towers IH].
  - split; [by intros ?%elem_of_nil|]. by intros (? & ? & ?%elem_of_nil & _).
  - cbn [VariableMgrDistributedReplicated.copy_to_towers].
    destruct (local_var_by_name !! _) as [copy_to|] eqn:Hi.
    + rewrite elem_of_cons, IH. split.
      * intros [->|(i' & copy_to' & ? & ? & ?)].
        -- exists i, copy_to. split; [apply list_elem_of_here|done].
        -- exists i', copy_to'. split; [by apply list_elem_of_further|done].
      * intros (i' & copy_to' & [->|?]%elem_of_cons & Hi' & ->).
        -- left. congruence.
        -- right. by exists i', copy_to'.
    + rewrite IH. split.
      * intros (i' & copy_to' & ? & ? & ?).
        exists i', copy_to'. split; [by apply list_elem_of_further|done].
      * intros (i' & copy_to' & [->|?]%elem_of_cons & Hi' & ->);
          [congruence|]. by exists i', copy_to'.
Qed.

Lemma post_init_loop_elem local_var_by_name num_gpus vars (op : Op Elem) :
  op ∈ VariableMgrDistributedReplicated.post_init_loop
         local_var_by_name num_gpus vars
  ↔ ∃ v, v ∈ vars
         ∧ startswith (name v) (PS_SHADOW_VAR_PREFIX +:+ "/v0/") = true
         ∧ op ∈ VariableMgrDistributedReplicated.copy_to_towers
                  local_var_by_name v
                  (VariableMgrDistributedReplicated._strip_port
                     (slice_from
                        (String.length (PS_SHADOW_VAR_PREFIX +:+ "/v0"))
                        (name v)))
                  (seq 0 num_gpus).
Proof.
  induction vars as [|v vars IH].
  - split; [by intros ?%elem_of_nil|]. by intros (? & ?%elem_of_nil & _).
  - cbn [VariableMgrDistributedReplicated.post_init_loop].
    destruct (startswith (name v) _) eqn:Hv.
    + rewrite elem_of_app, IH. split.
      * intros [?|(v' & ? & ? & ?)].
        -- exists v. split; [apply list_elem_of_here|done].
        -- exists v'. split; [by apply list_elem_of_further|done].
      * intros (v' & [->|?]%elem_of_cons & ? & ?); [by left|].
        right. by exists v'.
    + rewrite IH. split.
      * intros (v' & ? & ? & ?).
        exists v'. split; [by apply list_elem_of_further|done].
      * intros (v' & [->|?]%elem_of_cons & ? & ?); [congruence|].
        by exists v'.
Qed.

(** The name of a shadow variable of tower 0, cut behind ["/v0"]. *)
Lemma shadow_v0_rest s :
  startswith s (PS_SHADOW_VAR_PREFIX +:+ "/v0/") = true
  ↔ ∃ rest, s = PS_SHADOW_VAR_PREFIX +:+ "/v0/" +:+ rest.
Proof.
  rewrite startswith_app. split; intros [rest ->]; exists rest;
    by rewrite string_app_assoc.
Qed.

Lemma shadow_v0_prefix rest :
  VariableMgrDistributedReplicated._strip_port
    (slice_from (String.length (PS_SHADOW_VAR_PREFIX +:+ "/v0"))
                (PS_SHADOW_VAR_PREFIX +:+ "/v0/" +:+ rest))
  = "/" +:+ VariableMgrDistributedReplicated._strip_port rest.
Proof.
  replace (PS_SHADOW_VAR_PREFIX +:+ "/v0/" +:+ rest)
    with ((PS_SHADOW_VAR_PREFIX +:+ "/v0") +:+ ("/" +:+ rest))
    by (by rewrite !string_app_assoc).
  rewrite slice_from_app. apply (strip_port_after_slash "" rest).
Qed.
End shadow_copies.

(** X15: the post-initialization operations of the distributed replicated
    manager are exactly the assignments that copy a global variable named
    shadow prefix, ["/v0/"] and some rest to, for a tower [i] below the
    number of GPUs, the local variable named ["v"], [i], ["/"] and that
    rest, names being compared without their [":0"]; of several local
    variables with one such name the last is written. *)
Theorem shadow_variables_copied_to_towers `{TensorFlow} `{!VariableMgrUtil}
    (self : VariableMgrDistributedReplicated.t)
    (global_variables local_variables : list TfVariable) (op : Op Elem) :
  op ∈ VariableMgrDistributedReplicated.get_post_init_ops
         self global_variables local_variables
  ↔ ∃ v rest i copy_to,
      op = Assign copy_to (ReadValue v [] None) [] None
      ∧ v ∈ global_variables
      ∧ name v = PS_SHADOW_VAR_PREFIX +:+ "/v0/" +:+ rest
      ∧ (i < num_gpus (VariableMgr.benchmark_cnn self))%nat
      ∧ last (filter
                (λ w, VariableMgrDistributedReplicated._strip_port (name w)
                      = "v" +:+ pretty i +:+ "/"
                        +:+ VariableMgrDistributedReplicated._strip_port rest)
                local_variables)
        = Some copy_to.
Proof.
  unfold VariableMgrDistributedReplicated.get_post_init_ops.
  rewrite post_init_loop_elem. split.
  - intros (v & Hv & [rest Hname]%shadow_v0_rest & Hop).
    apply copy_to_towers_elem in Hop as (i & copy_to & Hi & Hlookup & ->).
    exists v, rest, i, copy_to. split; [done|]. split; [done|].
    split; [done|]. split; [apply elem_of_seq in Hi; lia|].
    rewrite Hname, shadow_v0_prefix in Hlookup.
    unfold py_dict in Hlookup.
    rewrite (py_dict_keyed_lookup
               (λ w, VariableMgrDistributedReplicated._strip_port (name w)))
      in Hlookup.
    destruct (last _); [done|]. by rewrite lookup_empty in Hlookup.
  - intros (v & rest & i & copy_to & -> & Hv & Hname & Hi & Hlast).
    exists v. split; [done|]. split; [apply shadow_v0_rest; by exists rest|].
    apply copy_to_towers_elem. exists i, copy_to.
    split; [apply elem_of_seq; lia|]. split; [|done].
    rewrite Hname, shadow_v0_prefix. unfold py_dict.
    rewrite (py_dict_keyed_lookup
               (λ w, VariableMgrDistributedReplicated._strip_port (name w))).
    by rewrite Hlast.
Qed.

(** ** The devices of the distributed all-reduce manager *)

(** X16: whenever the distributed all-reduce manager returns from
    [preprocess_device_grads], no tower is empty, and the device it names
    for a tower is the device of the first gradient of that tower. *)
Theorem all_reduce_device_of_first_gradient
    `{TensorFlow} `{!AllReduce} `{!VariableMgrUtil}
    (self : VariableMgrDistributedAllReduce.t) (device_grads : DeviceGrads)
    (apply_devices : list Device) (gradient_state : DeviceGrads) :
  VariableMgrDistributedAllReduce.preprocess_device_grads self device_grads
  = Ok (apply_devices, gradient_state) →
  Forall2 (λ (tower : list GradAndVar) dev,
             ∃ gv, head tower = Some gv ∧ dev = device gv.1)
          device_grads apply_devices.
Proof.
  unfold VariableMgrDistributedAllReduce.preprocess_device_grads.
  intros ([aggregated remaining] & _ & Hrest)%bind_Ok.
  apply bind_Ok in Hrest as (_ & _ & Hrest).
  apply bind_Ok in Hrest as (full_device_set & Hdevs & [= <- _]).
  apply mapM_Ok_Forall2 in Hdevs.
  eapply Forall2_impl; [exact Hdevs|]. intros tower dev Hdev. cbn beta in Hdev.
  apply bind_Ok in Hdev as (gv & Hgv & [= <-]).
  exists gv. split; [|done].
  destruct tower as [|gv' tower]; [done|]. by injection Hgv as ->.
Qed.

(** * Further worked examples *)

Section further_examples.
#[local] Existing Instance Sample.tensorflow.
#[local] Existing Instance Sample.allreduce.
#[local] Existing Instance Sample.variable_mgr_util.

(** The shadow variable of the weights is saved as ["v0/w"], the step
    counter as ["global_step"], and the moving average of tower 0 under its
    own name. *)
Lemma distributed_replicated_savable_keys_witness :
  ∃ params,
    VariableMgrDistributedReplicated.savable_variables
      Sample.shadow_globals Sample.local_variables Sample.trainable_variables
    = Ok params
    ∧ is_Some (params !! "v0/w")
    ∧ is_Some (params !! "global_step")
    ∧ is_Some (params !! "v0/moving_mean").
Proof.
  assert (∃ params,
            VariableMgrDistributedReplicated.savable_variables
              Sample.shadow_globals Sample.local_variables
              Sample.trainable_variables = Ok params) as [params Hparams]
    by (eexists; vm_compute; reflexivity).
  exists params. split; [exact Hparams|].
  destruct (distributed_replicated_savable_keys
              Sample.shadow_globals Sample.local_variables
              Sample.trainable_variables params Hparams)
    as (_ & Hglobals & Hlocals).
  split; [|split].
  - apply (Hglobals (mkVariable "ps_var/v0/w:0")).
    unfold Sample.shadow_globals. rewrite !elem_of_cons. auto.
  - apply (Hglobals (mkVariable "global_step:0")).
    unfold Sample.shadow_globals. rewrite !elem_of_cons. auto.
  - apply (Hlocals (mkVariable "v0/moving_mean:0")).
    + unfold Sample.local_variables. rewrite !elem_of_cons. auto.
    + reflexivity.
    + unfold Sample.trainable_variables. rewrite !elem_of_cons, elem_of_nil.
      intros [[=]|[[=]|[]]].
Defined.

(** The weights of tower 1 are not among the variables of device 0. *)
Lemma trainable_variables_on_one_device_witness :
  mkVariable "v1/w:0"
  ∉ VariableMgr.trainable_variables_on_device
      true Sample.trainable_variables 0 0 false.
Proof.
  apply (trainable_variables_on_one_device
           Sample.trainable_variables 1 0 1 0 false false).
  - lia.
  - unfold VariableMgr.trainable_variables_on_device.
    apply list_elem_of_filter. split; [reflexivity|].
    unfold Sample.trainable_variables. rewrite !elem_of_cons. auto.
Defined.

(** Device number [-1] is the last of the two towers. *)
Lemma device_num_range_witness :
  ∃ to_apply,
    Sample.device_grads2 !! 1%nat = Some to_apply
    ∧ get_gradients_to_apply
        (LocalReplicated Sample.local_replicated) (-1) Sample.device_grads2
      = Ok to_apply.
Proof.
  eexists. split; [reflexivity|].
  apply (proj1 (device_num_range
                  (LocalReplicated Sample.local_replicated) (-1)
                  Sample.device_grads2 eq_refl)).
  split; [simpl; lia|reflexivity].
Defined.

(** A range that is reduced after another one leaves two lists. *)
Lemma all_reduce_ranges_only_append_witness :
  ∃ aggregated' remaining',
    VariableMgrDistributedAllReduce.reduce_ranges
      Sample.distributed_all_reduce [mkAllReduceSpecTuple "nccl" 1 (-1)]
      (Sample.device_grads2, Sample.device_grads2)
    = Ok (aggregated', remaining')
    ∧ length aggregated' = 2%nat.
Proof.
  assert (∃ aggregated' remaining',
            VariableMgrDistributedAllReduce.reduce_ranges
              Sample.distributed_all_reduce
              [mkAllReduceSpecTuple "nccl" 1 (-1)]
              (Sample.device_grads2, Sample.device_grads2)
            = Ok (aggregated', remaining'))
    as (aggregated' & remaining' & Hloop)
    by (eexists _, _; vm_compute; reflexivity).
  exists aggregated', remaining'. split; [exact Hloop|].
  destruct (all_reduce_ranges_only_append
              Sample.distributed_all_reduce
              [mkAllReduceSpecTuple "nccl" 1 (-1)]
              Sample.device_grads2 Sample.device_grads2
              aggregated' remaining') as (Hlen & _ & _).
  - unfold Sample.device_grads2. discriminate.
  - exact Hloop.
  - exact Hlen.
Defined.

(** The weights of tower 1 are copied from those of tower 0. *)
Lemma post_init_restores_unsaved_witness :
  ∃ ops,
    VariableMgrLocalReplicated.get_post_init_ops Sample.global_variables
    = Ok ops
    ∧ omap assigned_to ops
      ++ VariableMgrLocalReplicated.savable_variables Sample.global_variables
      ≡ₚ Sample.global_variables.
Proof.
  eexists. split; [vm_compute; reflexivity|].
  apply (post_init_restores_unsaved Sample.global_variables).
  vm_compute. reflexivity.
Defined.

(** Seven elements in three packs. *)
Lemma split_sizes_remainder_witness :
  VariableMgrLocalReplicated.split_sizes 7 3 = [2; 2; 3]%nat.
Proof.
  apply (split_sizes_remainder 7 3). lia.
Defined.

(** A spec of one range. *)
Lemma distributed_all_reduce_init_witness :
  ∃ self,
    VariableMgrDistributedAllReduce.__init__
      Sample.cnn2 (Some "nccl") "worker" 1 0 0 = Ok self
    ∧ VariableMgrDistributedAllReduce._all_reduce_spec self ≠ [].
Proof.
  assert (∃ self,
            VariableMgrDistributedAllReduce.__init__
              Sample.cnn2 (Some "nccl") "worker" 1 0 0 = Ok self)
    as [self Hself] by (eexists; vm_compute; reflexivity).
  exists self. split; [exact Hself|].
  destruct (distributed_all_reduce_init
              Sample.cnn2 (Some "nccl") "worker" 1 0 0 self Hself)
    as (s & _ & _ & _ & Hne & _).
  exact Hne.
Defined.

(** Device number [-1] is refused on the parameter server. *)
Lemma parameter_server_device_num_witness :
  get_gradients_to_apply
    (DistributedFetchFromPS Sample.distributed_fetch_from_ps) (-1)
    Sample.device_grads2
  = Raise AssertionError.
Proof.
  apply parameter_server_device_num; [reflexivity|discriminate|lia].
Defined.

(** Two towers on two GPUs. *)
Lemma all_reduce_device_of_first_gradient_witness :
  ∃ gradient_state,
    VariableMgrDistributedAllReduce.preprocess_device_grads
      Sample.distributed_all_reduce Sample.device_grads2
    = Ok (["/gpu:0"; "/gpu:1"], gradient_state)
    ∧ Forall2 (λ (tower : list (Tensor Sample.elem * TfVariable)) dev,
                 ∃ gv, head tower = Some gv ∧ dev = device gv.1)
              Sample.device_grads2 ["/gpu:0"; "/gpu:1"].
Proof.
  assert (∃ gradient_state,
            VariableMgrDistributedAllReduce.preprocess_device_grads
              Sample.distributed_all_reduce Sample.device_grads2
            = Ok (["/gpu:0"; "/gpu:1"], gradient_state))
    as [gradient_state Hpre] by (eexists; vm_compute; reflexivity).
  exists gradient_state. split; [exact Hpre|].
  exact (all_reduce_device_of_first_gradient
           Sample.distributed_all_reduce Sample.device_grads2
           ["/gpu:0"; "/gpu:1"] gradient_state Hpre).
Defined.
End further_examples.
